(** * pycaret.internal.utils: a shallow embedding and its verified properties

    The development follows [src/pycaret/internal/utils.py]:
    the config store ([get_config], [set_config], [save_config],
    [load_config]), the pipeline composer ([make_internal_pipeline],
    [add_estimator_to_pipeline], [remove_estimator_from_pipeline], the
    [estimator_pipeline] context manager), the metric engine
    ([calculate_metrics], [_calculate_metric]), the transformer normalizer
    ([normalize_custom_transformers], [_check_custom_transformer]) and the
    splitter selector ([get_cv_splitter]).

    Python values are a first-order universe [pyobj]; a raised exception is
    the [Raise] branch of [result]; an object mutated in place is threaded
    through as the function's output state. *)

From stdpp Require Import base option list strings pretty gmap.

Local Open Scope string_scope.
Local Open Scope Z_scope.
Local Open Scope list_scope.

(** ** Python values *)

(** A pipeline object: the ordered (name, object) steps and the cache. *)
Record Pipeline_ (obj : Type) : Type := mkPipeline {
  steps : list (string * obj);
  memory : obj
}.
Arguments mkPipeline {obj} _ _.
Arguments steps {obj} _.
Arguments memory {obj} _.

(** The values that flow through the module.  [PyFloat] holds the IEEE-754
    bit pattern of a double; [PyInstance] is an instance of a class of no
    further interest, with the names [hasattr] finds on it, that is truthy
    (as an object is, unless its class has a [__bool__] or a [__len__] that
    says otherwise); [PyFalsy] is such an instance that is falsy (an empty
    [bytes], an empty container of a class of its own); [PyPipeline] is a
    [sklearn.pipeline.Pipeline] instance, [attrs] being the method names it
    exposes besides its fields. *)
#[warnings="-register-all"]
Inductive pyobj : Type :=
  | PyNone
  | PyBool (b : bool)
  | PyInt (n : Z)
  | PyFloat (bits : Z)
  | PyStr (s : string)
  | PyTuple (elts : list pyobj)
  | PyList (elts : list pyobj)
  | PySet (elts : list pyobj)
  | PyDict (items : list (pyobj * pyobj))
  | PyInstance (cls : string) (attrs : list string)
  | PyFalsy (cls : string) (attrs : list string)
  | PyPipeline (attrs : list string) (p : Pipeline_ pyobj)
  | KFold (n_splits : Z) (random_state : Z) (shuffle : bool)
  | StratifiedKFold (n_splits : Z) (random_state : Z) (shuffle : bool).

Abbreviation Pipeline := (Pipeline_ pyobj).

(** The pieces of an f-string: literal text, [{value}], [{type(value)}]. *)
Inductive fpart : Type :=
  | Lit (s : string)
  | Fmt (o : pyobj)
  | FmtType (o : pyobj).

Inductive pyexn : Type :=
  | ValueError (msg : list fpart)
  | TypeError (msg : list fpart)
  | AttributeError (msg : list fpart)
  | IndexError (msg : list fpart)
  | KeyError (key : string)
  | FileNotFoundError (file_name : string)
  | OtherException (cls : string).

Inductive result (A : Type) : Type :=
  | Ok (a : A)
  | Raise (e : pyexn).
Arguments Ok {A} _.
Arguments Raise {A} _.

Global Instance result_ret : MRet result := fun A a => Ok a.
Global Instance result_bind : MBind result := fun A B f m =>
  match m with
  | Ok a => f a
  | Raise e => Raise e
  end.

(** [try: body / except: handler] with a bare [except]. *)
Definition try_except {A} (body : result A) (handler : result A) : result A :=
  match body with
  | Ok a => Ok a
  | Raise _ => handler
  end.

(** [bool(o)], as [not o] and [if o] use it.  A pipeline has a [__len__],
    the number of its steps. *)
Definition truthy (o : pyobj) : bool :=
  match o with
  | PyNone => false
  | PyBool b => b
  | PyInt n => negb (n =? 0)
  | PyFloat bits => negb ((bits =? 0) || (bits =? 2 ^ 63))
  | PyStr s => negb (String.eqb s "")
  | PyTuple elts | PyList elts | PySet elts => negb (Nat.eqb (length elts) 0)
  | PyDict items => negb (Nat.eqb (length items) 0)
  | PyFalsy _ _ => false
  | PyPipeline _ p => negb (Nat.eqb (length (steps p)) 0)
  | PyInstance _ _ | KFold _ _ _ | StratifiedKFold _ _ _ => true
  end.

Definition is_str (o : pyobj) : bool :=
  match o with PyStr _ => true | _ => false end.
Definition is_tuple (o : pyobj) : bool :=
  match o with PyTuple _ => true | _ => false end.
(** [type(o) is int]: a [bool] is not of type [int] exactly. *)
Definition type_is_int (o : pyobj) : bool :=
  match o with PyInt _ => true | _ => false end.

(** The step list of a pipeline as the Python list of pairs it is. *)
Definition steps_obj (l : list (string * pyobj)) : pyobj :=
  PyList (map (fun s => PyTuple [PyStr (fst s); snd s]) l).

(** [hasattr(o, name)] for the names this module probes.  Text has a
    [split] method; the other builtin values expose none of the probed
    names. *)
Definition hasattr (o : pyobj) (name : string) : bool :=
  match o with
  | PyInstance _ attrs | PyFalsy _ attrs => bool_decide (name ∈ attrs)
  | PyPipeline attrs _ => bool_decide (name ∈ "steps" :: "memory" :: attrs)
  | KFold _ _ _ | StratifiedKFold _ _ _ =>
      bool_decide (name ∈ ["split"; "get_n_splits"])
  | PyStr _ => bool_decide (name ∈ ["split"])
  | _ => false
  end.

(** [o.steps] *)
Definition getattr_steps (o : pyobj) : result pyobj :=
  match o with
  | PyPipeline _ p => Ok (steps_obj (steps p))
  | _ => Raise (AttributeError [FmtType o; Lit " object has no attribute 'steps'"])
  end.

(** [o[0]] *)
Definition getitem0 (o : pyobj) : result pyobj :=
  match o with
  | PyTuple (x :: _) | PyList (x :: _) => Ok x
  | PyTuple [] | PyList [] => Raise (IndexError [Lit "index out of range"])
  | _ => Raise (TypeError [FmtType o; Lit " object is not subscriptable"])
  end.

(** [variable in container] for a text [variable]: an element equal to it in
    a set, list or tuple, a key equal to it in a dict, a substring of a
    text; anything else is not iterable. *)
Definition eq_str (variable : string) (o : pyobj) : bool :=
  match o with PyStr s => String.eqb s variable | _ => false end.

Fixpoint is_prefix (p s : string) : bool :=
  match p, s with
  | EmptyString, _ => true
  | String a p', String b s' => Ascii.eqb a b && is_prefix p' s'
  | String _ _, EmptyString => false
  end.

Fixpoint is_substring (p s : string) : bool :=
  is_prefix p s ||
  match s with
  | EmptyString => false
  | String _ s' => is_substring p s'
  end.

Definition py_in (variable : string) (container : pyobj) : result bool :=
  match container with
  | PySet elts | PyList elts | PyTuple elts => Ok (existsb (eq_str variable) elts)
  | PyDict items => Ok (existsb (fun kv => eq_str variable (fst kv)) items)
  | PyStr s => Ok (is_substring variable s)
  | _ => Raise (TypeError [Lit "argument of type "; FmtType container;
                           Lit " is not iterable"])
  end.

(** ** The config store

    [globals_d] is the dictionary of the session's named variables; its
    entry ["pycaret_globals"] holds the collection of the known names.  A
    function that assigns into [globals_d] returns the dictionary as it
    leaves it, next to its result.  The lines that only write to the log are
    left out. *)

Abbreviation globals := (gmap string pyobj).

(** The pickled dictionaries on disk, by file name; each is the item list of
    the dictionary, in order. *)
Abbreviation files := (gmap string (list (string * pyobj))).

(** Modelled from the spec: [pycaret.internal.logging.get_logger] is not
    under src; the Logger of section 6 accepts line-oriented informational
    messages. *)
Definition get_logger : pyobj := PyInstance "logging.Logger" ["info"].

(** [globals_d[k]] *)
Definition getitem (globals_d : globals) (k : string) : result pyobj :=
  match globals_d !! k with
  | Some v => Ok v
  | None => Raise (KeyError k)
  end.

Definition not_found (variable : string) (pycaret_globals : pyobj) : pyexn :=
  ValueError [Lit "Variable "; Fmt (PyStr variable);
              Lit " not found. Possible variables are: "; Fmt pycaret_globals].

Definition get_config (variable : string) (globals_d : globals) : result pyobj :=
  pycaret_globals ← getitem globals_d "pycaret_globals";
  known ← py_in variable pycaret_globals;
  if negb known then Raise (not_found variable pycaret_globals)
  else getitem globals_d variable.

Definition set_config (variable : string) (value : pyobj) (globals_d : globals)
  : result unit * globals :=
  match getitem globals_d "pycaret_globals" with
  | Raise e => (Raise e, globals_d)
  | Ok pycaret_globals =>
    match py_in variable pycaret_globals with
    | Raise e => (Raise e, globals_d)
    | Ok known =>
      if negb known || String.eqb variable "pycaret_globals"
      then (Raise (not_found variable pycaret_globals), globals_d)
      else
        let globals_d := <[variable := value]> globals_d in
        (* special case *)
        match getitem globals_d "gpu_param" with
        | Raise e => (Raise e, globals_d)
        | Ok gpu_param =>
          if negb (truthy gpu_param) && String.eqb variable "n_jobs_param"
          then (Ok tt, <["gpu_n_jobs_param" := value]> globals_d)
          else (Ok tt, globals_d)
        end
    end
  end.

(** [{k: v for k, v in items if k in globals_d["pycaret_globals"]}] *)
Fixpoint globals_to_dump (globals_d : globals) (items : list (string * pyobj))
  : result (list (string * pyobj)) :=
  match items with
  | [] => Ok []
  | (k, v) :: rest =>
      pycaret_globals ← getitem globals_d "pycaret_globals";
      known ← py_in k pycaret_globals;
      dumped ← globals_to_dump globals_d rest;
      Ok (if known : bool then (k, v) :: dumped else dumped)
  end.

Definition save_config (file_name : string) (globals_d : globals) (disk : files)
  : result files :=
  dumped ← globals_to_dump globals_d (map_to_list globals_d);
  Ok (<[file_name := dumped]> disk).

(** [for k, v in loaded_globals.items(): globals_d[k] = v] *)
Definition install (globals_d : globals) (loaded_globals : list (string * pyobj))
  : globals :=
  foldl (fun g kv => <[fst kv := snd kv]> g) globals_d loaded_globals.

Definition load_config (file_name : string) (globals_d : globals) (disk : files)
  : result unit * globals :=
  match disk !! file_name with
  | None => (Raise (FileNotFoundError file_name), globals_d)
  | Some loaded_globals =>
      let globals_d := install globals_d loaded_globals in
      (Ok tt, <["logger" := get_logger]> globals_d)
  end.

(** ** The pipeline composer *)

(** Modelled from the spec: the class [pycaret.internal.Pipeline.EmptyStep]
    is not under src; section 4.3 calls its instance a single inert
    pass-through step, one that performs no transformation. *)
Definition EmptyStep : pyobj :=
  PyInstance "pycaret.internal.Pipeline.EmptyStep" ["fit"; "transform"; "fit_transform"].

Definition make_internal_pipeline
  (internal_pipeline_steps : list (string * pyobj)) (memory : pyobj) : Pipeline :=
  match internal_pipeline_steps with
  | [] => mkPipeline [("passthrough", EmptyStep)] PyNone
  | _ :: _ => mkPipeline internal_pipeline_steps memory
  end.

Definition add_estimator_to_pipeline (pipeline : Pipeline) (estimator : pyobj)
  : Pipeline :=
  mkPipeline (steps pipeline ++ [("actual_estimator", estimator)]) (memory pipeline).

(** [pipeline.steps[-1]] raises on an empty list; [pop] drops the last
    step. *)
Definition remove_estimator_from_pipeline (pipeline : Pipeline)
  : result unit * Pipeline :=
  match last (steps pipeline) with
  | None => (Raise (IndexError [Lit "list index out of range"]), pipeline)
  | Some step =>
      if String.eqb (fst step) "actual_estimator"
      then (Ok tt, mkPipeline (removelast (steps pipeline)) (memory pipeline))
      else (Ok tt, pipeline)
  end.

(** The context manager [estimator_pipeline]: [__enter__] and [__exit__] act
    on the one pipeline object the context refers to. *)
Definition estimator_pipeline_enter (pipeline : Pipeline) (estimator : pyobj)
  : Pipeline :=
  add_estimator_to_pipeline pipeline estimator.

Definition estimator_pipeline_exit (pipeline : Pipeline) : result unit * Pipeline :=
  remove_estimator_from_pipeline pipeline.

(** [with estimator_pipeline(pipeline, estimator) as p: body].  The body
    ends normally or by raising, and leaves the pipeline in some state;
    [__exit__] runs in both cases and returns nothing, so an exception of the
    body goes on to the caller; an exception of [__exit__] itself replaces
    it. *)
Definition with_estimator_pipeline {A} (pipeline : Pipeline) (estimator : pyobj)
  (body : Pipeline -> result A * Pipeline) : result A * Pipeline :=
  let entered := estimator_pipeline_enter pipeline estimator in
  let '(r, after_body) := body entered in
  match estimator_pipeline_exit after_body with
  | (Raise e, after_exit) => (Raise e, after_exit)
  | (Ok _, after_exit) => (r, after_exit)
  end.

(** The invariant of the data model: at most one step is named
    ["actual_estimator"], and such a step is the last one. *)
Definition is_estimator_step (step : string * pyobj) : bool :=
  String.eqb (fst step) "actual_estimator".

Definition step_invariant (l : list (string * pyobj)) : bool :=
  (length (filter is_estimator_step l) <=? 1)%nat &&
  (if existsb is_estimator_step l
   then match last l with
        | Some step => is_estimator_step step
        | None => false
        end
   else true).

Definition no_estimator_step (l : list (string * pyobj)) : bool :=
  forallb (fun step => negb (is_estimator_step step)) l.

(** ** The metric engine *)

(** A cell of the catalog's "Score Function" column: a function, taking
    positional and keyword arguments, or any other value. *)
Inductive cell : Type :=
  | CellObj (o : pyobj)
  | CellFunc (f : list pyobj -> list (string * pyobj) -> result pyobj).

(** A row of the metric catalog as [itertuples] yields it.  The source finds
    the "Score Function" and "Display Name" columns by position
    ([score_function_idx], [display_name_idx]); here the row names them. *)
Record metric_row : Type := {
  Score_Function : cell;
  Display_Name : string;
  Target : string;
  Args : list (string * pyobj)
}.

Definition cell_truthy (c : cell) : bool :=
  match c with
  | CellObj o => truthy o
  | CellFunc _ => true
  end.

(** One entry per call that reached a scoring function: the positional and
    the keyword arguments it received. *)
Definition call_event : Type := list pyobj * list (string * pyobj).

(** A call of [c] with positional [args], explicit keywords [kw] and the
    unpacked mapping [starred]: a keyword given twice and a value that is
    not callable raise before any function runs. *)
Definition call_scorer (c : cell) (args : list pyobj)
  (kw starred : list (string * pyobj)) : result pyobj * list call_event :=
  if existsb (fun k => existsb (String.eqb k) (map fst starred)) (map fst kw)
  then (Raise (TypeError [Lit "got multiple values for keyword argument"]), [])
  else match c with
       | CellObj o => (Raise (TypeError [FmtType o; Lit " object is not callable"]), [])
       | CellFunc f => (f args (kw ++ starred), [(args, kw ++ starred)])
       end.

Definition _calculate_metric (row : metric_row) (ytest pred_ pred_proba weights : pyobj)
  : result (option (string * pyobj)) * list call_event :=
  if negb (cell_truthy (Score_Function row)) then (Ok None, [])
  else
    let target := if String.eqb (Target row) "pred_proba" then pred_proba else pred_ in
    let '(first, log1) :=
      call_scorer (Score_Function row) [ytest; target]
                  [("sample_weight", weights)] (Args row) in
    match first with
    | Ok calculated_metric => (Ok (Some (Display_Name row, calculated_metric)), log1)
    | Raise _ =>
        let '(second, log2) :=
          call_scorer (Score_Function row) [ytest; target] [] (Args row) in
        match second with
        | Ok calculated_metric =>
            (Ok (Some (Display_Name row, calculated_metric)), log1 ++ log2)
        | Raise _ => (Ok (Some (Display_Name row, PyInt 0)), log1 ++ log2)
        end
    end.

(** [d[k] = v] on an insertion-ordered dictionary, and [dict(pairs)]. *)
Fixpoint dict_setitem {V} (k : string) (v : V) (d : list (string * V))
  : list (string * V) :=
  match d with
  | [] => [(k, v)]
  | (k', v') :: d' =>
      if String.eqb k' k then (k', v) :: d' else (k', v') :: dict_setitem k v d'
  end.

Definition dict {V} (pairs : list (string * V)) : list (string * V) :=
  foldl (fun d kv => dict_setitem (fst kv) (snd kv) d) [] pairs.

Fixpoint dict_get {V} (k : string) (d : list (string * V)) : option V :=
  match d with
  | [] => None
  | (k', v) :: d' => if String.eqb k' k then Some v else dict_get k d'
  end.

(** The loop of [calculate_metrics] over the rows. *)
Fixpoint calculate_metrics_rows (rows : list metric_row)
  (ytest pred_ pred_proba weights : pyobj)
  : result (list (option (string * pyobj))) * list call_event :=
  match rows with
  | [] => (Ok [], [])
  | row :: rest =>
      let '(r, log) := _calculate_metric row ytest pred_ pred_proba weights in
      match r with
      | Raise e => (Raise e, log)
      | Ok x =>
          let '(rs, log') :=
            calculate_metrics_rows rest ytest pred_ pred_proba weights in
          (match rs with
           | Ok xs => Ok (x :: xs)
           | Raise e => Raise e
           end, log ++ log')
      end
  end.

(** The argument [score_dict] is overwritten before it is read. *)
Definition calculate_metrics (metrics : list metric_row)
  (ytest pred_ pred_proba score_dict weights : pyobj)
  : result (list (string * pyobj)) * list call_event :=
  let '(rs, log) := calculate_metrics_rows metrics ytest pred_ pred_proba weights in
  (match rs with
   | Ok score_dict => Ok (dict (omap id score_dict))
   | Raise e => Raise e
   end, log).

(** What section 4.4 of the spec promises for an enabled row: the value of
    the first tier that does not raise, the literal 0 after two failures. *)
Definition tier (row : metric_row) (kw : list (string * pyobj))
  (ytest pred_ pred_proba : pyobj) : result pyobj :=
  fst (call_scorer (Score_Function row)
         [ytest; if String.eqb (Target row) "pred_proba" then pred_proba else pred_]
         kw (Args row)).

Definition spec_score (row : metric_row) (ytest pred_ pred_proba weights : pyobj)
  : pyobj :=
  match tier row [("sample_weight", weights)] ytest pred_ pred_proba with
  | Ok v => v
  | Raise _ =>
      match tier row [] ytest pred_ pred_proba with
      | Ok v => v
      | Raise _ => PyInt 0
      end
  end.

Definition enabled (row : metric_row) : bool := cell_truthy (Score_Function row).

(** A number: an [int] or a [float]. *)
Definition is_numeric (o : pyobj) : bool :=
  match o with PyInt _ | PyFloat _ => true | _ => false end.

Definition score_entry (ytest pred_ pred_proba weights : pyobj) (row : metric_row)
  : string * pyobj :=
  (Display_Name row, spec_score row ytest pred_ pred_proba weights).

(** ** The transformer normalizer *)

(** Modelled from the spec: [is_sklearn_pipeline] comes from
    [pycaret.internal.validation], which is not under src; section 4.1 has
    it hold of a value that is itself a full composed pipeline. *)
Definition is_sklearn_pipeline (o : pyobj) : bool :=
  match o with PyPipeline _ _ => true | _ => false end.

Definition _check_custom_transformer (transformer : pyobj) : result unit :=
  actual_transformer ← match transformer with
    | PyTuple elts =>
        if negb (Nat.eqb (length elts) 2)
        then Raise (ValueError [Lit "Transformer tuple must have a size of 2."])
        else if negb (is_str (nth 0 elts PyNone))
        then Raise (TypeError [Lit "First element of transformer tuple must be a str."])
        else Ok (nth 1 elts PyNone)
    | _ => Ok transformer
    end;
  if negb (hasattr actual_transformer "fit"
           && hasattr actual_transformer "transform"
           && hasattr actual_transformer "fit_transform")
  then Raise (TypeError [Lit "Transformer must be an object implementing methods 'fit', 'transform' and 'fit_transform'."])
  else Ok tt.

(** The loop over [enumerate(transformers)], from index [i] on.  (When an
    element fails the check, the elements before it have been rewritten in
    the caller's list already; the value returned is what is modelled.) *)
Fixpoint normalize_list (i : nat) (transformers : list pyobj) : result (list pyobj) :=
  match transformers with
  | [] => Ok []
  | x :: rest =>
      _ ← _check_custom_transformer x;
      rest' ← normalize_list (S i) rest;
      Ok ((if is_tuple x then x
           else PyTuple [PyStr ("custom_step_" +:+ pretty i); x]) :: rest')
  end.

Definition items_obj (items : list (pyobj * pyobj)) : list pyobj :=
  map (fun kv => PyTuple [fst kv; snd kv]) items.

Definition normalize_custom_transformers (transformers : pyobj) : result pyobj :=
  let transformers :=
    match transformers with
    | PyDict items => PyList (items_obj items)
    | _ => transformers
    end in
  match transformers with
  | PyList elts => elts' ← normalize_list 0 elts; Ok (PyList elts')
  | _ =>
      _ ← _check_custom_transformer transformers;
      let transformers :=
        if is_tuple transformers then transformers
        else PyTuple [PyStr "custom_step"; transformers] in
      first ← getitem0 transformers;
      if is_sklearn_pipeline first then getattr_steps transformers
      else Ok (PyList [transformers])
  end.

(** The single-input case: the input is neither a list nor a dict; what the
    wrapping step makes of it. *)
Definition is_list_or_dict (transformers : pyobj) : bool :=
  match transformers with PyList _ | PyDict _ => true | _ => false end.

Definition wrapped (transformers : pyobj) : pyobj :=
  if is_tuple transformers then transformers
  else PyTuple [PyStr "custom_step"; transformers].

(** ** The splitter selector *)

(** Modelled from the spec: [is_sklearn_cv_generator] comes from
    [pycaret.internal.validation], which is not under src; section 4.2 has
    it hold of a value that exposes a split-generation capability (a text,
    whose [split] cuts the text, is not a splitter). *)
Definition is_sklearn_cv_generator (o : pyobj) : bool :=
  negb (is_str o) && hasattr o "split".

Definition wrong_int_default : pyexn :=
  ValueError [Lit "Wrong value for int_default param. Needs to be either 'kfold' or 'stratifiedkfold'."].

Definition wrong_fold (fold : pyobj) : pyexn :=
  TypeError [Fmt fold; Lit " is of type "; FmtType fold;
             Lit " while it needs to be either a CV generator or int."].

(** The constructor of scikit-learn's two K-fold classes, called as
    [cls(n_splits, random_state=seed, shuffle=shuffle)] with an integer seed:
    it refuses a fold count below 2; from scikit-learn 0.24 on ([strict]) it
    also refuses a seed given without shuffling, which earlier versions only
    warn about. *)
Definition n_splits_error (n_splits : Z) : pyexn :=
  ValueError [Lit "k-fold cross-validation requires at least one train/test split by setting n_splits=2 or more, got n_splits=";
              Fmt (PyInt n_splits); Lit "."].

Definition random_state_error : pyexn :=
  ValueError [Lit "Setting a random_state has no effect since shuffle is False. You should leave random_state to its default (None), or set shuffle=True."].

Definition new_kfold (strict : bool) (cls : Z -> Z -> bool -> pyobj)
  (n_splits random_state : Z) (shuffle : bool) : result pyobj :=
  if n_splits <=? 1 then Raise (n_splits_error n_splits)
  else if strict && negb shuffle then Raise random_state_error
  else Ok (cls n_splits random_state shuffle).

Definition get_cv_splitter (strict : bool) (fold default : pyobj) (seed : Z)
  (shuffle : bool) (int_default : string) : result pyobj :=
  if negb (truthy fold) then Ok default
  else if is_sklearn_cv_generator fold then Ok fold
  else match fold with
       | PyInt n =>
           if String.eqb int_default "kfold"
           then new_kfold strict KFold n seed shuffle
           else if String.eqb int_default "stratifiedkfold"
           then new_kfold strict StratifiedKFold n seed shuffle
           else Raise wrong_int_default
       | _ => Raise (wrong_fold fold)
       end.

(** ** The fold count *)

(** [fold.get_n_splits()]: the two K-fold classes report the fold count
    they were built with; what an instance of another class reports is its
    own affair ([custom], by class); a value without the method raises. *)
Definition get_n_splits (custom : string -> result pyobj) (fold : pyobj)
  : result pyobj :=
  match fold with
  | KFold n _ _ | StratifiedKFold n _ _ => Ok (PyInt n)
  | PyInstance cls attrs | PyFalsy cls attrs =>
      if bool_decide ("get_n_splits" ∈ attrs) then custom cls
      else Raise (AttributeError [FmtType fold;
                                  Lit " object has no attribute 'get_n_splits'"])
  | _ => Raise (AttributeError [FmtType fold;
                                Lit " object has no attribute 'get_n_splits'"])
  end.

(** [isinstance(o, int)]: a [bool] is an [int]. *)
Definition isinstance_int (o : pyobj) : bool :=
  match o with PyInt _ | PyBool _ => true | _ => false end.

Definition get_cv_n_folds (custom : string -> result pyobj)
  (fold : pyobj) (default_folds : Z) : result pyobj :=
  if negb (truthy fold) then Ok (PyInt default_folds)
  else if isinstance_int fold then Ok fold
  else get_n_splits custom fold.

(** ** Class and package names *)

(** The characters [.] and [(]. *)
Definition dot : Ascii.ascii := Ascii.ascii_of_nat 46.
Definition open_paren : Ascii.ascii := Ascii.ascii_of_nat 40.

(** The arguments [get_class_name] and [get_package_name] are written for:
    a class, by its dotted name, or a text.  [own_repr] is the text of the
    class when its metaclass prints it in a way of its own (an [Enum] class
    prints as [<enum 'Color'>]), and is absent for a class printed the usual
    way.  [str_is_instance] tells whether the class [str] is an instance of
    the class, as it is of [type] and of [object]. *)
Inductive class_var : Type :=
  | ClassObj (qualname : string) (own_repr : option string)
             (str_is_instance : bool)
  | TextObj (s : string).

(** [str(class_var)] *)
Definition str_of (c : class_var) : string :=
  match c with
  | ClassObj qualname None _ => "<class '" +:+ qualname +:+ "'>"
  | ClassObj _ (Some text) _ => text
  | TextObj s => s
  end.

(** [s[8:-2]] *)
Definition slice_8_m2 (s : string) : string :=
  String.substring 8 (String.length s - 10)%nat s.

Definition get_class_name (c : class_var) : string := slice_8_m2 (str_of c).

(** [s.split(sep)[0]] for a separator of one character. *)
Fixpoint before_char (sep : Ascii.ascii) (s : string) : string :=
  match s with
  | EmptyString => EmptyString
  | String a s' =>
      if Ascii.eqb a sep then EmptyString else String a (before_char sep s')
  end.

(** [isinstance(str, class_var)]: a second argument that is not a class
    raises. *)
Definition isinstance_str_class (c : class_var) : result bool :=
  match c with
  | ClassObj _ _ str_is_instance => Ok str_is_instance
  | TextObj _ =>
      Raise (TypeError [Lit "isinstance() arg 2 must be a type, a tuple of types, or a union"])
  end.

(** When the test holds, [class_var] is still the class, which has no
    [split]. *)
Definition get_package_name (c : class_var) : result string :=
  is_inst ← isinstance_str_class c;
  if negb is_inst then Ok (before_char dot (get_class_name c))
  else match c with
       | TextObj s => Ok (before_char dot s)
       | ClassObj _ _ _ =>
           Raise (AttributeError [Lit "type object has no attribute 'split'"])
       end.

(** ** Parameter grids *)

(** [list(v)]: the elements of a list, tuple or set, the keys of a dict,
    the characters of a text; what iterating another value gives is
    [iterate]'s answer. *)
Definition py_list (iterate : pyobj -> result (list pyobj)) (v : pyobj)
  : result pyobj :=
  match v with
  | PyList elts | PyTuple elts | PySet elts => Ok (PyList elts)
  | PyDict items => Ok (PyList (map fst items))
  | PyStr s =>
      Ok (PyList (map (fun c => PyStr (String c EmptyString))
                      (String.list_ascii_of_string s)))
  | _ => elts ← iterate v; Ok (PyList elts)
  end.

(** The loop [for k, v in param_grid.items(): param_grid[k] = list(v)] over
    the items still to visit; the dictionary is returned as the loop leaves
    it, also when [list] raises. *)
Fixpoint param_grid_loop (iterate : pyobj -> result (list pyobj))
  (items param_grid : list (string * pyobj))
  : result unit * list (string * pyobj) :=
  match items with
  | [] => (Ok tt, param_grid)
  | (k, v) :: rest =>
      match py_list iterate v with
      | Raise e => (Raise e, param_grid)
      | Ok l => param_grid_loop iterate rest (dict_setitem k l param_grid)
      end
  end.

(** An empty dictionary is falsy. *)
Definition param_grid_to_lists (iterate : pyobj -> result (list pyobj))
  (param_grid : list (string * pyobj)) : result unit * list (string * pyobj) :=
  match param_grid with
  | [] => (Ok tt, param_grid)
  | _ :: _ => param_grid_loop iterate param_grid param_grid
  end.

(** ** The model catalog *)

(** What [get_model_name] looks through: a text, [None], or an object with
    its class, its [str] and the attributes [steps], [base_estimator] and
    [estimator] when it has them.  (An attribute that is there may hold
    [None].)  Objects are finite trees here; an object that contains itself
    is not represented. *)
#[warnings="-register-all"]
Inductive estimator : Type :=
  | ENone
  | EText (s : string)
  | EObject (cls : string) (repr : string)
            (e_steps : option (list (string * estimator)))
            (e_base_estimator : option estimator)
            (e_estimator : option estimator).

(** A row of [all_models] as [itertuples] yields it: the index label first,
    then the columns read here. *)
Record model_row : Type := {
  model_Index : string;
  model_Class : string;
  model_Name : string;
  model_Special : bool
}.

(** [type(e)], by the name of the class, and [str(e)]. *)
Definition type_of (e : estimator) : string :=
  match e with
  | ENone => "NoneType"
  | EText _ => "str"
  | EObject cls _ _ _ _ => cls
  end.

Definition str_estimator (e : estimator) : string :=
  match e with
  | ENone => "None"
  | EText s => s
  | EObject _ repr _ _ _ => repr
  end.

Fixpoint get_model_id (e : estimator) (all_models : list model_row)
  : option string :=
  match all_models with
  | [] => None
  | row :: rest =>
      if String.eqb (type_of e) (model_Class row) then Some (model_Index row)
      else get_model_id e rest
  end.

Fixpoint is_special_model (e : estimator) (all_models : list model_row) : bool :=
  match all_models with
  | [] => false
  | row :: rest =>
      if String.eqb (type_of e) (model_Class row) then model_Special row
      else is_special_model e rest
  end.

(** The loop [while True] of [get_model_name]: the last step of [steps],
    else [base_estimator], else [estimator], until none of the three is
    there. *)
Fixpoint final_estimator (e : estimator) : result estimator :=
  match e with
  | EObject _ _ (Some l) _ _ =>
      (fix last_step (l : list (string * estimator)) : result estimator :=
         match l with
         | [] => Raise (IndexError [Lit "list index out of range"])
         | (_, e') :: [] => final_estimator e'
         | _ :: (_ :: _) as l' => last_step l'
         end) l
  | EObject _ _ None (Some b) _ => final_estimator b
  | EObject _ _ None None (Some x) => final_estimator x
  | _ => Ok e
  end.

(** Induction on the objects, through their attributes. *)
Definition holds_inside {T} (P : T -> Prop) (o : option T) : Prop :=
  match o with
  | Some a => P a
  | None => True
  end.

Fixpoint estimator_induction (P : estimator -> Prop)
  (HNone : P ENone) (HText : forall s, P (EText s))
  (HObject : forall cls repr st b x,
      holds_inside (Forall (fun step => P (snd step))) st ->
      holds_inside P b -> holds_inside P x ->
      P (EObject cls repr st b x))
  (e : estimator) {struct e} : P e :=
  match e with
  | ENone => HNone
  | EText s => HText s
  | EObject cls repr st b x =>
      HObject cls repr st b x
        (match st return holds_inside (Forall (fun step => P (snd step))) st with
         | Some l =>
             (fix steps_hold (l : list (string * estimator))
                : Forall (fun step => P (snd step)) l :=
                match l with
                | [] => @List.Forall_nil _ _
                | step :: l' =>
                    @List.Forall_cons _ _ step l'
                      (match step return P (snd step) with
                       | (_, e') =>
                           estimator_induction P HNone HText HObject e'
                       end)
                      (steps_hold l')
                end) l
         | None => I
         end)
        (match b return holds_inside P b with
         | Some e' => estimator_induction P HNone HText HObject e'
         | None => I
         end)
        (match x return holds_inside P x with
         | Some e' => estimator_induction P HNone HText HObject e'
         | None => I
         end)
  end.

(** A value with none of the three attributes. *)
Definition is_leaf (e : estimator) : bool :=
  match e with
  | EObject _ _ None None None => true
  | EObject _ _ _ _ _ => false
  | _ => true
  end.

(** [all_models.loc[model_id]["Name"]]: the name of the one row with this
    label, the series of the names when several rows have it. *)
Inductive loc_value : Type :=
  | Scalar (s : string)
  | Series (names : list string).

Definition loc_Name (all_models : list model_row) (model_id : string)
  : result loc_value :=
  match filter (fun row => model_Index row = model_id) all_models with
  | [] => Raise (KeyError model_id)
  | [row] => Ok (Scalar (model_Name row))
  | rows => Ok (Series (map model_Name rows))
  end.

(** [isinstance(e, str) and e in all_models.index] *)
Definition text_in_index (e : estimator) (all_models : list model_row)
  : option string :=
  match e with
  | EText s =>
      if existsb (String.eqb s) (map model_Index all_models) then Some s else None
  | _ => None
  end.

Definition get_model_name (e : estimator) (all_models : list model_row)
  (deep : bool) : result loc_value :=
  found ← match text_in_index e all_models with
          | Some model_id => Ok (e, Some model_id)
          | None =>
              e ← (if deep then final_estimator e else Ok e);
              Ok (e, get_model_id e all_models)
          end;
  match snd found with
  | Some model_id => loc_Name all_models model_id
  | None => Ok (Scalar (before_char open_paren (str_estimator (fst found))))
  end.

(** ** The parameter scopes *)

(** What [none_n_jobs] and [true_warm_start] ask of the model they are
    given: [get_params] and [set_params], called with keyword arguments,
    which acts on the model in place. *)
Record sk_model (S : Type) : Type := {
  get_params : S -> result (list (string * pyobj));
  set_params : list (string * pyobj) -> S -> result unit * S
}.
Arguments get_params {S} _ _.
Arguments set_params {S} _ _ _.

(** [s.endswith(suffix)] *)
Definition endswith (s suffix : string) : bool :=
  (String.length suffix <=? String.length s)%nat
  && String.eqb (String.substring (String.length s - String.length suffix)
                                  (String.length suffix) s) suffix.

Definition is_n_jobs (k : string) : bool :=
  endswith k "n_jobs" || endswith k "thread_count".

(** [__init__]: the parameters kept in [self.params]; none when
    [get_params] raises. *)
Definition none_n_jobs_init {S} (M : sk_model S) (model : S)
  : list (string * pyobj) :=
  match get_params M model with
  | Ok d => filter (fun kv => is_n_jobs (fst kv)) d
  | Raise _ => []
  end.

Definition none_n_jobs_enter {S} (M : sk_model S)
  (params : list (string * pyobj)) (model : S) : result unit * S :=
  match params with
  | [] => (Ok tt, model)
  | _ :: _ => set_params M (map (fun kv => (fst kv, PyNone)) params) model
  end.

Definition none_n_jobs_exit {S} (M : sk_model S)
  (params : list (string * pyobj)) (model : S) : result unit * S :=
  match params with
  | [] => (Ok tt, model)
  | _ :: _ => set_params M params model
  end.

(** [with none_n_jobs(model): body] *)
Definition with_none_n_jobs {S A} (M : sk_model S) (model : S)
  (body : S -> result A * S) : result A * S :=
  let params := none_n_jobs_init M model in
  match none_n_jobs_enter M params model with
  | (Raise e, entered) => (Raise e, entered)
  | (Ok _, entered) =>
      let '(r, after_body) := body entered in
      match none_n_jobs_exit M params after_body with
      | (Raise e, after_exit) => (Raise e, after_exit)
      | (Ok _, after_exit) => (r, after_exit)
      end
  end.

Definition true_warm_start_init {S} (M : sk_model S) (model : S)
  : list (string * pyobj) :=
  match get_params M model with
  | Ok d => filter (fun kv => endswith (fst kv) "warm_start") d
  | Raise _ => []
  end.

Definition true_warm_start_enter {S} (M : sk_model S)
  (params : list (string * pyobj)) (model : S) : result unit * S :=
  match params with
  | [] => (Ok tt, model)
  | _ :: _ => set_params M (map (fun kv => (fst kv, PyBool true)) params) model
  end.

Definition true_warm_start_exit {S} (M : sk_model S)
  (params : list (string * pyobj)) (model : S) : result unit * S :=
  match params with
  | [] => (Ok tt, model)
  | _ :: _ => set_params M params model
  end.

(** [with true_warm_start(model): body] *)
Definition with_true_warm_start {S A} (M : sk_model S) (model : S)
  (body : S -> result A * S) : result A * S :=
  let params := true_warm_start_init M model in
  match true_warm_start_enter M params model with
  | (Raise e, entered) => (Raise e, entered)
  | (Ok _, entered) =>
      let '(r, after_body) := body entered in
      match true_warm_start_exit M params after_body with
      | (Raise e, after_exit) => (Raise e, after_exit)
      | (Ok _, after_exit) => (r, after_exit)
      end
  end.

(** A model whose [set_params], given distinct names that [get_params]
    reports, succeeds, keeps the set of names, and makes [get_params] report the
    given values for the given names and the former values for the
    others. *)
Definition params_store {S} (M : sk_model S) : Prop :=
  forall kw model d,
    get_params M model = Ok d ->
    NoDup kw.*1 ->
    (forall k, k ∈ kw.*1 -> k ∈ d.*1) ->
    exists model' d',
      set_params M kw model = (Ok tt, model')
      /\ get_params M model' = Ok d'
      /\ (forall k, k ∈ d'.*1 <-> k ∈ d.*1)
      /\ forall k, dict_get k d'
                   = match dict_get k kw with
                     | Some v => Some v
                     | None => dict_get k d
                     end.

(** ** Sample values *)

Definition scaler : pyobj :=
  PyInstance "StandardScaler" ["fit"; "transform"; "fit_transform"].
Definition model : pyobj := PyInstance "LogisticRegression" ["fit"; "predict"].
Definition other_model : pyobj := PyInstance "Ridge" ["fit"; "predict"].
Definition sample_pipeline : Pipeline := mkPipeline [("scale", scaler)] PyNone.
Definition failing_body (entered : Pipeline) : result unit * Pipeline :=
  (Raise (OtherException "RuntimeError"), entered).

Definition known_names : pyobj :=
  PySet [PyStr "seed"; PyStr "gpu_param"; PyStr "n_jobs_param";
         PyStr "gpu_n_jobs_param"].
Definition sample_globals : gmap string pyobj :=
  <["pycaret_globals" := known_names]>
    (<["seed" := PyInt 123]>
       (<["gpu_param" := PyBool false]>
          (<["n_jobs_param" := PyInt (-1)]>
             (<["gpu_n_jobs_param" := PyInt (-1)]> ∅)))).
Definition sample_disk : gmap string (list (string * pyobj)) :=
  <["myvars.pkl" := [("seed", PyInt 7); ("not_a_variable", PyInt 1)]]> ∅.

(** Scoring functions: one that takes no [sample_weight], one that always
    raises. *)
Definition unweighted_score (args : list pyobj) (kwargs : list (string * pyobj))
  : result pyobj :=
  if existsb (String.eqb "sample_weight") (map fst kwargs)
  then Raise (TypeError [Lit "got an unexpected keyword argument 'sample_weight'"])
  else Ok (PyFloat 4606281698874543309).
Definition raising_score (args : list pyobj) (kwargs : list (string * pyobj))
  : result pyobj :=
  Raise (ValueError [Lit "Only one class present in y_true."]).
Definition accuracy_row : metric_row :=
  {| Score_Function := CellFunc unweighted_score; Display_Name := "Accuracy";
     Target := "pred"; Args := [] |}.
Definition kappa_row : metric_row :=
  {| Score_Function := CellObj PyNone; Display_Name := "Kappa";
     Target := "pred"; Args := [] |}.
Definition auc_row : metric_row :=
  {| Score_Function := CellFunc raising_score; Display_Name := "AUC";
     Target := "pred_proba"; Args := [("average", PyStr "weighted")] |}.
Definition sample_metrics : list metric_row := [accuracy_row; kappa_row; auc_row].
Definition sample_ytest : pyobj := PyList [PyInt 1; PyInt 0; PyInt 1].
Definition sample_pred : pyobj := PyList [PyInt 1; PyInt 1; PyInt 1].
Definition sample_proba : pyobj :=
  PyList [PyFloat 4606281698874543309; PyFloat 4603579539098121011;
          PyFloat 4605831338911806259].

Definition inner_pipeline : pyobj :=
  PyPipeline ["fit"; "transform"; "fit_transform"]
             (mkPipeline [("scale", scaler)] PyNone).
Definition default_splitter : pyobj := StratifiedKFold 10 123 false.

Definition encoder : pyobj :=
  PyInstance "OneHotEncoder" ["fit"; "transform"; "fit_transform"].
Definition no_transform : pyobj := PyInstance "Broken" ["fit"; "fit_transform"].

Definition bare_globals : gmap string pyobj :=
  <["pycaret_globals" := known_names]> (<["seed" := PyInt 1]> ∅).

Definition not_iterable (v : pyobj) : result (list pyobj) :=
  Raise (TypeError [FmtType v; Lit " object is not iterable"]).
Definition sample_grid : list (string * pyobj) :=
  [("alpha", PyTuple [PyInt 1; PyInt 10]);
   ("solver", PySet [PyStr "svd"]);
   ("fit_intercept", PyList [PyBool true; PyBool false])].

(** A model whose parameters are a dictionary: [set_params] refuses a name
    that [get_params] does not report, as scikit-learn's does. *)
Definition dict_model : sk_model (list (string * pyobj)) :=
  {| get_params := fun m => Ok m;
     set_params := fun kw m =>
       if forallb (fun kv => existsb (String.eqb (fst kv)) (map fst m)) kw
       then (Ok tt, foldl (fun acc kv => dict_setitem (fst kv) (snd kv) acc) m kw)
       else (Raise (ValueError [Lit "Invalid parameter"]), m) |}.
Definition forest_params : list (string * pyobj) :=
  [("n_estimators", PyInt 100); ("n_jobs", PyInt (-1));
   ("warm_start", PyBool false)].

Definition sample_models : list model_row :=
  [ {| model_Index := "lr"; model_Class := "LogisticRegression";
       model_Name := "Logistic Regression"; model_Special := false |};
    {| model_Index := "bagging"; model_Class := "BaggingClassifier";
       model_Name := "Bagging Classifier"; model_Special := true |} ].
Definition lr_estimator : estimator :=
  EObject "LogisticRegression" "LogisticRegression(C=1.0)" None None None.
Definition svc_estimator : estimator :=
  EObject "SVC" "SVC(kernel='rbf')" None None None.
Definition lr_pipeline : estimator :=
  EObject "Pipeline" "Pipeline(steps=[...])"
          (Some [("scale", svc_estimator); ("actual_estimator", lr_estimator)])
          None None.

(** * Properties *)

(** ** The pipeline composer *)

Section Composer.
Implicit Types (pipeline : Pipeline) (estimator : pyobj).
Implicit Types (l : list (string * pyobj)) (step : string * pyobj).

Lemma pipeline_eta pipeline :
  mkPipeline (steps pipeline) (memory pipeline) = pipeline.
Proof. by destruct pipeline. Qed.

Lemma steps_add pipeline estimator :
  steps (add_estimator_to_pipeline pipeline estimator)
  = steps pipeline ++ [("actual_estimator", estimator)].
Proof. done. Qed.

(** Removing right after adding gives the pipeline back. *)
Lemma remove_add pipeline estimator :
  remove_estimator_from_pipeline (add_estimator_to_pipeline pipeline estimator)
  = (Ok tt, pipeline).
Proof.
  unfold remove_estimator_from_pipeline.
  rewrite steps_add, last_snoc, removelast_last. cbn.
  by rewrite pipeline_eta.
Qed.

Lemma filter_estimator_snoc l step :
  filter is_estimator_step (l ++ [step])
  = filter is_estimator_step l ++ (if is_estimator_step step then [step] else []).
Proof.
  rewrite filter_app. f_equal.
  rewrite filter_cons, filter_nil.
  destruct (is_estimator_step step); by case_decide.
Qed.

Lemma no_estimator_filter l :
  no_estimator_step l = true <-> filter is_estimator_step l = [].
Proof.
  unfold no_estimator_step.
  induction l as [|step l IH]; [done|].
  cbn [forallb]. rewrite filter_cons.
  destruct (is_estimator_step step) eqn:E; cbn.
  - case_decide as H; [|by destruct H]. split; discriminate.
  - case_decide as H; [by destruct H|]. exact IH.
Qed.

Lemma no_estimator_existsb l :
  no_estimator_step l = true -> existsb is_estimator_step l = false.
Proof.
  unfold no_estimator_step.
  induction l as [|step l IH]; [done|].
  cbn. destruct (is_estimator_step step); cbn; [discriminate | exact IH].
Qed.

(** The invariant says that no step but the last is an estimator step. *)
Lemma step_invariant_snoc l step :
  step_invariant (l ++ [step]) = no_estimator_step l.
Proof.
  unfold step_invariant.
  rewrite filter_estimator_snoc, last_snoc, existsb_app, length_app.
  destruct (no_estimator_step l) eqn:Hl.
  - pose proof (proj1 (no_estimator_filter l) Hl) as ->.
    rewrite (no_estimator_existsb l Hl).
    cbn. by destruct (is_estimator_step step).
  - assert (filter is_estimator_step l <> []) as Hne.
    { intros H. apply no_estimator_filter in H. congruence. }
    destruct (filter is_estimator_step l) as [|x f] eqn:Hf; [done|].
    assert (existsb is_estimator_step l = true) as ->.
    { apply existsb_exists. exists x. 
      assert (x ∈ filter is_estimator_step l) as Hx by (rewrite Hf; left).
      apply list_elem_of_filter in Hx as [Hx1 Hx2].
      split; [by apply list_elem_of_In | by apply Is_true_true]. }
    cbn. destruct (is_estimator_step step); cbn.
    + apply andb_false_intro1. apply Nat.leb_gt. cbn. lia.
    + apply andb_false_intro2. done.
Qed.

Lemma no_estimator_invariant l :
  no_estimator_step l = true -> step_invariant l = true.
Proof.
  intros Hl. unfold step_invariant.
  rewrite (proj1 (no_estimator_filter l) Hl), (no_estimator_existsb l Hl). done.
Qed.

Lemma remove_preserves_invariant pipeline :
  step_invariant (steps pipeline) = true ->
  step_invariant (steps (snd (remove_estimator_from_pipeline pipeline))) = true.
Proof.
  intros Hinv. unfold remove_estimator_from_pipeline.
  destruct (steps pipeline) as [|s l] eqn:Hs using rev_ind.
  - cbn. by rewrite Hs.
  - clear IHl. rewrite last_snoc.
    destruct (String.eqb (fst s) "actual_estimator"); cbn; [|by rewrite Hs].
    rewrite removelast_last. rewrite step_invariant_snoc in Hinv.
    by apply no_estimator_invariant.
Qed.
Lemma remove_last_named pipeline step :
  last (steps pipeline) = Some step ->
  remove_estimator_from_pipeline pipeline =
    (Ok tt, if String.eqb (fst step) "actual_estimator"
            then mkPipeline (removelast (steps pipeline)) (memory pipeline)
            else pipeline).
Proof.
  intros Hlast. unfold remove_estimator_from_pipeline. rewrite Hlast.
  by destruct (String.eqb (fst step) "actual_estimator").
Qed.

(** C2: entering the scope appends [("actual_estimator", E)] as the last
    step of P, and leaving it gives P its step list back, whether the body
    of the scope returns or raises ([r] is either), as long as the body
    hands the step list back as it received it.  The exit after the entry
    never fails, so this holds for an empty step list too. *)
Theorem scoped_attachment_restores {A} pipeline estimator
  (body : Pipeline -> result A * Pipeline) (r : result A) (after_body : Pipeline) :
  body (estimator_pipeline_enter pipeline estimator) = (r, after_body) ->
  steps after_body = steps (estimator_pipeline_enter pipeline estimator) ->
  steps (estimator_pipeline_enter pipeline estimator)
    = steps pipeline ++ [("actual_estimator", estimator)]
  /\ last (steps (estimator_pipeline_enter pipeline estimator))
     = Some ("actual_estimator", estimator)
  /\ estimator_pipeline_exit (estimator_pipeline_enter pipeline estimator)
     = (Ok tt, pipeline)
  /\ exists restored,
       with_estimator_pipeline pipeline estimator body = (r, restored)
       /\ steps restored = steps pipeline
       /\ length (steps restored) = length (steps pipeline)
       /\ map fst (steps restored) = map fst (steps pipeline).
Proof.
  intros Hbody Hsteps.
  unfold estimator_pipeline_enter, estimator_pipeline_exit in *.
  split; [apply steps_add|].
  split; [rewrite steps_add; apply last_snoc|].
  split; [apply remove_add|].
  exists (mkPipeline (steps pipeline) (memory after_body)).
  split; [|done].
  unfold with_estimator_pipeline, estimator_pipeline_enter, estimator_pipeline_exit.
  rewrite Hbody.
  rewrite (remove_last_named after_body ("actual_estimator", estimator)).
  - cbn. by rewrite Hsteps, steps_add, removelast_last.
  - rewrite Hsteps, steps_add. apply last_snoc.
Qed.

(** C6: on a pipeline whose last step is not named exactly
    ["actual_estimator"], removing the estimator changes nothing; the step
    list changes only when the last step has that name, and then it loses
    exactly its last step. *)
Theorem remove_estimator_frame pipeline step :
  last (steps pipeline) = Some step ->
  (fst step <> "actual_estimator" ->
     remove_estimator_from_pipeline pipeline = (Ok tt, pipeline))
  /\ (forall r pipeline',
        remove_estimator_from_pipeline pipeline = (r, pipeline') ->
        pipeline' <> pipeline ->
        fst step = "actual_estimator"
        /\ steps pipeline' = removelast (steps pipeline)
        /\ memory pipeline' = memory pipeline)
  /\ (fst step = "actual_estimator" ->
        remove_estimator_from_pipeline pipeline
        = (Ok tt, mkPipeline (removelast (steps pipeline)) (memory pipeline))).
Proof.
  intros Hlast. rewrite (remove_last_named pipeline step Hlast).
  destruct (String.eqb_spec (fst step) "actual_estimator") as [Heq|Hne].
  - split; [done|]. split; [|done].
    intros r pipeline' [= <- <-] _. done.
  - split; [done|]. split; [|done].
    intros r pipeline' [= <- <-] Hchanged. done.
Qed.

(** Two entries on the same pipeline, then the two exits, give the
    pipeline back. *)
Lemma nested_scopes_restore pipeline estimator1 estimator2 :
  with_estimator_pipeline pipeline estimator1 (fun entered =>
    with_estimator_pipeline entered estimator2 (fun inner => (Ok tt, inner)))
  = (Ok tt, pipeline).
Proof.
  unfold with_estimator_pipeline, estimator_pipeline_enter, estimator_pipeline_exit.
  by rewrite !remove_add.
Qed.

(** C5, as the code has it: removing the estimator and composing preserve
    the invariant; adding an estimator establishes it on a pipeline that
    has no estimator step; two nested scopes on one pipeline, once both are
    left, give the step list back, and two scopes one after the other do
    too. *)
Theorem step_invariant_preserved pipeline :
  step_invariant (steps pipeline) = true ->
  step_invariant (steps (snd (remove_estimator_from_pipeline pipeline))) = true
  /\ (forall cache,
        step_invariant (steps (make_internal_pipeline (steps pipeline) cache)) = true)
  /\ (no_estimator_step (steps pipeline) = true ->
      forall estimator,
        step_invariant (steps (add_estimator_to_pipeline pipeline estimator)) = true)
  /\ (forall estimator1 estimator2,
        with_estimator_pipeline pipeline estimator1 (fun entered =>
          with_estimator_pipeline entered estimator2 (fun inner => (Ok tt, inner)))
        = (Ok tt, pipeline))
  /\ (forall estimator1 estimator2,
        with_estimator_pipeline
          (snd (with_estimator_pipeline pipeline estimator1
                  (fun entered => (Ok tt, entered))))
          estimator2 (fun entered => (Ok tt, entered))
        = (Ok tt, pipeline)).
Proof.
  intros Hinv.
  split; [by apply remove_preserves_invariant|].
  split.
  { intros cache. unfold make_internal_pipeline.
    destruct (steps pipeline) as [|s l]; [done|exact Hinv]. }
  split.
  { intros Hno estimator. rewrite steps_add, step_invariant_snoc. exact Hno. }
  split; [apply nested_scopes_restore|].
  intros estimator1 estimator2.
  unfold with_estimator_pipeline, estimator_pipeline_enter, estimator_pipeline_exit.
  rewrite remove_add. cbn. by rewrite remove_add.
Qed.

(** C7: composing an empty step list gives one step, the pass-through,
    and no cache, whatever cache was supplied; composing a non-empty step
    list gives exactly these steps and this cache. *)
Theorem make_internal_pipeline_spec (cache : pyobj) :
  make_internal_pipeline [] cache = mkPipeline [("passthrough", EmptyStep)] PyNone
  /\ length (steps (make_internal_pipeline [] cache)) = 1%nat
  /\ memory (make_internal_pipeline [] cache) = PyNone
  /\ forall step l,
       make_internal_pipeline (step :: l) cache = mkPipeline (step :: l) cache.
Proof. done. Qed.
End Composer.

Lemma scoped_attachment_restores_witness :
  last (steps (estimator_pipeline_enter sample_pipeline model))
  = Some ("actual_estimator", model)
  /\ exists restored,
       with_estimator_pipeline sample_pipeline model failing_body
       = (Raise (OtherException "RuntimeError"), restored)
       /\ steps restored = [("scale", scaler)].
Proof.
  destruct (scoped_attachment_restores sample_pipeline model failing_body
              (Raise (OtherException "RuntimeError"))
              (estimator_pipeline_enter sample_pipeline model)
              eq_refl eq_refl) as (_ & Hlast & _ & restored & Hwith & Hsteps & _).
  split; [exact Hlast|]. exists restored. split; [exact Hwith | exact Hsteps].
Defined.

Lemma remove_estimator_frame_witness :
  remove_estimator_from_pipeline sample_pipeline = (Ok tt, sample_pipeline).
Proof.
  apply (remove_estimator_frame sample_pipeline ("scale", scaler) eq_refl).
  discriminate.
Defined.

(** An entry inside an open scope on the same pipeline leaves two steps
    named ["actual_estimator"]: the invariant holds before the inner entry
    and fails after it. *)
Lemma nested_entry_breaks_invariant :
  step_invariant (steps (estimator_pipeline_enter sample_pipeline model)) = true
  /\ step_invariant
       (steps (estimator_pipeline_enter
                 (estimator_pipeline_enter sample_pipeline model) other_model))
     = false.
Proof. split; reflexivity. Qed.

Lemma step_invariant_preserved_witness :
  step_invariant (steps (snd (remove_estimator_from_pipeline
                                (add_estimator_to_pipeline sample_pipeline model))))
  = true.
Proof.
  apply (step_invariant_preserved (add_estimator_to_pipeline sample_pipeline model)).
  reflexivity.
Defined.

(** ** The config store *)

Section ConfigStore.
Implicit Types (globals_d : gmap string pyobj) (value : pyobj).
Implicit Types (variable k : string) (loaded_globals : list (string * pyobj)).

Lemma install_cons globals_d k value loaded_globals :
  install globals_d ((k, value) :: loaded_globals)
  = install (<[k := value]> globals_d) loaded_globals.
Proof. done. Qed.

Lemma install_lookup_notin loaded_globals globals_d k :
  k ∉ loaded_globals.*1 ->
  install globals_d loaded_globals !! k = globals_d !! k.
Proof.
  revert globals_d.
  induction loaded_globals as [|[k' v'] rest IH]; intros globals_d Hk; [done|].
  rewrite install_cons. cbn in Hk. apply not_elem_of_cons in Hk as [Hne Hrest].
  rewrite IH by done. by rewrite lookup_insert_ne.
Qed.

Lemma install_lookup_in loaded_globals globals_d k value :
  NoDup loaded_globals.*1 ->
  (k, value) ∈ loaded_globals ->
  install globals_d loaded_globals !! k = Some value.
Proof.
  revert globals_d.
  induction loaded_globals as [|[k' v'] rest IH]; intros globals_d Hnd Hin.
  - by apply elem_of_nil in Hin.
  - rewrite install_cons. cbn in Hnd. apply NoDup_cons in Hnd as [Hfresh Hnd].
    apply elem_of_cons in Hin as [[= -> ->]|Hin].
    + rewrite install_lookup_notin by done. apply lookup_insert_eq.
    + by apply IH.
Qed.

(** What the comprehension of [save_config] keeps. *)
Lemma globals_to_dump_elem globals_d items dumped :
  globals_to_dump globals_d items = Ok dumped ->
  dumped `sublist_of` items
  /\ forall k value pycaret_globals,
       (k, value) ∈ items ->
       globals_d !! "pycaret_globals" = Some pycaret_globals ->
       py_in k pycaret_globals = Ok true ->
       (k, value) ∈ dumped.
Proof.
  revert dumped.
  induction items as [|[k' v'] rest IH]; intros dumped Hdump.
  - injection Hdump as <-. split; [done|]. intros k value pg Hin.
    by apply elem_of_nil in Hin.
  - cbn in Hdump. unfold getitem in Hdump.
    destruct (globals_d !! "pycaret_globals") as [pg|] eqn:Hpg; [|done].
    cbn in Hdump.
    destruct (py_in k' pg) as [known|] eqn:Hknown; [|done].
    cbn in Hdump.
    destruct (globals_to_dump globals_d rest) as [dumped'|] eqn:Hrest; [|done].
    cbn in Hdump. injection Hdump as <-.
    destruct (IH dumped' eq_refl) as [Hsub Hkeep].
    split.
    + destruct known; [by apply sublist_skip | by apply sublist_cons].
    + intros k value pg' Hin Hpg' Hk. 
      assert (pg' = pg) as -> by congruence.
      apply elem_of_cons in Hin as [[= -> ->]|Hin].
      * assert (known = true) as -> by congruence. left.
      * specialize (Hkeep k value pg Hin eq_refl Hk).
        destruct known; [by right | done].
Qed.

(** C9, as the code has it: loading installs every entry of the snapshot,
    known name or not, and then the logger; it checks no name and does not
    fail.  Every entry that [save_config] wrote (the known names of the
    saved store) is back in the store after the load. *)
Theorem load_config_installs file_name globals_d
  (disk : gmap string (list (string * pyobj))) loaded_globals :
  disk !! file_name = Some loaded_globals ->
  NoDup loaded_globals.*1 ->
  load_config file_name globals_d disk
    = (Ok tt, <["logger" := get_logger]> (install globals_d loaded_globals))
  /\ (forall k value,
        (k, value) ∈ loaded_globals -> k <> "logger" ->
        snd (load_config file_name globals_d disk) !! k = Some value)
  /\ (forall k,
        k ∉ loaded_globals.*1 -> k <> "logger" ->
        snd (load_config file_name globals_d disk) !! k = globals_d !! k)
  /\ snd (load_config file_name globals_d disk) !! "logger" = Some get_logger
  /\ (forall saved_globals disk0 pycaret_globals k value,
        save_config file_name saved_globals disk0 = Ok disk ->
        saved_globals !! "pycaret_globals" = Some pycaret_globals ->
        py_in k pycaret_globals = Ok true ->
        saved_globals !! k = Some value -> k <> "logger" ->
        snd (load_config file_name globals_d disk) !! k = Some value).
Proof.
  intros Hfile Hnd. unfold load_config. rewrite Hfile. cbn.
  split; [done|].
  split.
  { intros k value Hin Hk. rewrite lookup_insert_ne by done.
    by apply install_lookup_in. }
  split.
  { intros k Hnotin Hk. rewrite lookup_insert_ne by done.
    by apply install_lookup_notin. }
  split; [apply lookup_insert_eq|].
  intros saved disk0 pg k value Hsave Hpg Hknown Hk Hne.
  unfold save_config in Hsave.
  destruct (globals_to_dump saved (map_to_list saved)) as [dumped|] eqn:Hdump;
    [|done].
  cbn in Hsave. injection Hsave as <-.
  rewrite lookup_insert_eq in Hfile. injection Hfile as <-.
  rewrite lookup_insert_ne by done.
  apply install_lookup_in; [done|].
  apply (globals_to_dump_elem _ _ _ Hdump) with pg; [|done..].
  by apply elem_of_map_to_list.
Qed.

(** C10: after a successful [set_config], the store is the old one with
    the named variable set to the value; when the variable is
    ["n_jobs_param"] and the ["gpu_param"] entry is falsy,
    ["gpu_n_jobs_param"] holds the value too.  No other entry changes. *)
Theorem set_config_frame variable value globals_d :
  fst (set_config variable value globals_d) = Ok tt ->
  (variable = "n_jobs_param" ->
   forall gpu_param,
     globals_d !! "gpu_param" = Some gpu_param -> truthy gpu_param = false ->
     snd (set_config variable value globals_d)
       = <["gpu_n_jobs_param" := value]> (<["n_jobs_param" := value]> globals_d)
     /\ snd (set_config variable value globals_d) !! "gpu_n_jobs_param" = Some value)
  /\ (variable <> "n_jobs_param" ->
      snd (set_config variable value globals_d) = <[variable := value]> globals_d
      /\ forall k, k <> variable ->
           snd (set_config variable value globals_d) !! k = globals_d !! k).
Proof.
  unfold set_config, getitem.
  destruct (globals_d !! "pycaret_globals") as [pg|]; [|done].
  destruct (py_in variable pg) as [known|]; [|done].
  destruct (negb known || String.eqb variable "pycaret_globals"); [done|].
  cbn zeta.
  destruct (String.eqb_spec variable "n_jobs_param") as [->|Hne].
  - rewrite lookup_insert_ne by done.
    destruct (globals_d !! "gpu_param") as [gp|] eqn:Hgp; [|done].
    intros _. split; [|done].
    intros _ gpu_param [= <-] Hfalsy. rewrite Hfalsy. cbn.
    split; [done | apply lookup_insert_eq].
  - destruct (<[variable:=value]> globals_d !! "gpu_param"); [|done].
    rewrite andb_false_r. intros _. split; [done|]. intros _. cbn.
    split; [done|]. intros k Hk. by rewrite lookup_insert_ne.
Qed.
End ConfigStore.

Lemma load_config_installs_witness :
  snd (load_config "myvars.pkl" sample_globals sample_disk) !! "seed"
  = Some (PyInt 7).
Proof.
  assert (NoDup ([("seed", PyInt 7); ("not_a_variable", PyInt 1)].*1)) as Hnd.
  { cbn. apply NoDup_cons.
    split; [by intros ?%list_elem_of_singleton | apply NoDup_singleton]. }
  apply (load_config_installs "myvars.pkl" sample_globals sample_disk
           [("seed", PyInt 7); ("not_a_variable", PyInt 1)] eq_refl Hnd);
    [left | discriminate].
Defined.

(** A snapshot with a name outside the known set: [get_config] refuses the
    name, [load_config] installs it and does not fail. *)
Lemma load_config_unknown_name_installed :
  get_config "not_a_variable" sample_globals
  = Raise (not_found "not_a_variable" known_names)
  /\ fst (load_config "myvars.pkl" sample_globals sample_disk) = Ok tt
  /\ snd (load_config "myvars.pkl" sample_globals sample_disk) !! "not_a_variable"
     = Some (PyInt 1).
Proof. split; [|split]; vm_compute; reflexivity. Qed.

Lemma set_config_frame_witness :
  snd (set_config "n_jobs_param" (PyInt 4) sample_globals) !! "gpu_n_jobs_param"
  = Some (PyInt 4)
  /\ snd (set_config "seed" (PyInt 5) sample_globals) !! "gpu_n_jobs_param"
     = sample_globals !! "gpu_n_jobs_param".
Proof.
  split.
  - apply (set_config_frame "n_jobs_param" (PyInt 4) sample_globals eq_refl)
      with (PyBool false); reflexivity.
  - apply (set_config_frame "seed" (PyInt 5) sample_globals eq_refl);
      discriminate.
Defined.

(** ** The metric engine *)

Section MetricEngine.
Variables ytest pred_ pred_proba weights : pyobj.
Implicit Types (row : metric_row) (metrics : list metric_row).
Implicit Types (d : list (string * pyobj)) (k : string).

Local Abbreviation entry := (score_entry ytest pred_ pred_proba weights).

Lemma calculate_metric_fst row :
  fst (_calculate_metric row ytest pred_ pred_proba weights)
  = Ok (if enabled row then Some (entry row) else None).
Proof.
  unfold _calculate_metric, enabled, score_entry, spec_score, tier.
  destruct (cell_truthy (Score_Function row)); [|done]. cbn [negb].
  destruct (call_scorer _ _ [("sample_weight", weights)] _) as [[v1|e1] log1];
    [done|].
  destruct (call_scorer _ _ [] _) as [[v2|e2] log2]; done.
Qed.

Lemma calculate_metrics_rows_fst metrics :
  fst (calculate_metrics_rows metrics ytest pred_ pred_proba weights)
  = Ok (map (fun row => if enabled row then Some (entry row) else None) metrics).
Proof.
  induction metrics as [|row rest IH]; [done|].
  cbn [calculate_metrics_rows].
  pose proof (calculate_metric_fst row) as Hrow.
  destruct (_calculate_metric row ytest pred_ pred_proba weights) as [r log].
  cbn in Hrow. subst r.
  destruct (calculate_metrics_rows rest ytest pred_ pred_proba weights)
    as [rs log'].
  cbn in IH. subst rs. done.
Qed.

Lemma omap_enabled metrics :
  omap id (map (fun row => if enabled row then Some (entry row) else None) metrics)
  = map entry (filter enabled metrics).
Proof.
  induction metrics as [|row rest IH]; [done|].
  cbn [map omap list_omap]. rewrite filter_cons.
  fold (omap (M:=list) (@id (option (string * pyobj)))). rewrite IH.
  destruct (enabled row); cbn; by case_decide.
Qed.

(** On a fresh key, assignment appends; so [dict] keeps a list of pairs
    with distinct keys as it is. *)
Lemma dict_setitem_fresh {V} k (v : V) (d : list (string * V)) :
  k ∉ d.*1 -> dict_setitem k v d = d ++ [(k, v)].
Proof.
  induction d as [|[k' v'] d IH]; intros Hk; [done|].
  cbn in *. apply not_elem_of_cons in Hk as [Hne Hk].
  destruct (String.eqb_spec k' k) as [->|_]; [done|]. by rewrite IH.
Qed.

Lemma foldl_setitem_NoDup {V} (pairs acc : list (string * V)) :
  NoDup (acc ++ pairs).*1 ->
  foldl (fun m kv => dict_setitem (fst kv) (snd kv) m) acc pairs = acc ++ pairs.
Proof.
  revert acc. induction pairs as [|[k v] pairs IH]; intros acc Hnd.
  - by rewrite app_nil_r.
  - cbn [foldl fst snd]. rewrite dict_setitem_fresh.
    + rewrite IH; rewrite <- app_assoc; done.
    + rewrite fmap_app in Hnd. apply NoDup_app in Hnd as (_ & Hdisj & _).
      intros Hin. apply (Hdisj k Hin). cbn. left.
Qed.

Lemma dict_NoDup {V} (pairs : list (string * V)) :
  NoDup pairs.*1 -> dict pairs = pairs.
Proof. intros Hnd. unfold dict. by rewrite foldl_setitem_NoDup. Qed.

Lemma dict_get_notin {V} k (d : list (string * V)) :
  k ∉ d.*1 -> dict_get k d = None.
Proof.
  induction d as [|[k' v'] d IH]; intros Hk; [done|].
  cbn in *. apply not_elem_of_cons in Hk as [Hne Hk].
  destruct (String.eqb_spec k' k) as [->|_]; [done|]. by apply IH.
Qed.

Lemma dict_get_in {V} k (v : V) (d : list (string * V)) :
  NoDup d.*1 -> (k, v) ∈ d -> dict_get k d = Some v.
Proof.
  induction d as [|[k' v'] d IH]; intros Hnd Hin.
  - by apply elem_of_nil in Hin.
  - cbn in *. apply NoDup_cons in Hnd as [Hfresh Hnd].
    apply elem_of_cons in Hin as [[= -> ->]|Hin].
    + by rewrite String.eqb_refl.
    + destruct (String.eqb_spec k' k) as [->|_]; [|by apply IH].
      exfalso. apply Hfresh. apply list_elem_of_fmap. by exists (k, v).
Qed.

Lemma entries_names metrics :
  (map entry metrics).*1 = map Display_Name metrics.
Proof. induction metrics as [|row rest IH]; [done|]. cbn. by rewrite IH. Qed.

Lemma NoDup_names_inj metrics row row' :
  NoDup (map Display_Name metrics) ->
  row ∈ metrics -> row' ∈ metrics ->
  Display_Name row = Display_Name row' -> row = row'.
Proof.
  induction metrics as [|r rest IH]; intros Hnd Hin Hin'.
  - by apply elem_of_nil in Hin.
  - cbn in Hnd. apply NoDup_cons in Hnd as [Hfresh Hnd]. intros Hname.
    apply elem_of_cons in Hin as [->|Hin];
      apply elem_of_cons in Hin' as [->|Hin']; [done| | |by apply IH].
    + exfalso. apply Hfresh. rewrite Hname.
      apply list_elem_of_fmap. by exists row'.
    + exfalso. apply Hfresh. rewrite <- Hname.
      apply list_elem_of_fmap. by exists row.
Qed.
Lemma dict_get_elem {V} k (v : V) (d : list (string * V)) :
  dict_get k d = Some v -> (k, v) ∈ d.
Proof.
  induction d as [|[k' v'] d IH]; intros Hget; [done|].
  cbn in Hget. destruct (String.eqb_spec k' k) as [->|_].
  - injection Hget as ->. left.
  - right. by apply IH.
Qed.

Lemma existsb_eqb_notin k (names : list string) :
  k ∉ names -> existsb (String.eqb k) names = false.
Proof.
  induction names as [|k' names IH]; intros Hk; [done|].
  apply not_elem_of_cons in Hk as [Hne Hk]. cbn.
  rewrite IH by done. by destruct (String.eqb_spec k k').
Qed.

Lemma calculate_metrics_fst metrics score_dict :
  fst (calculate_metrics metrics ytest pred_ pred_proba score_dict weights)
  = Ok (dict (map entry (filter enabled metrics))).
Proof.
  unfold calculate_metrics.
  pose proof (calculate_metrics_rows_fst metrics) as Hrows.
  destruct (calculate_metrics_rows metrics ytest pred_ pred_proba weights)
    as [rs log].
  cbn in Hrows. subst rs. cbn. by rewrite omap_enabled.
Qed.

Lemma spec_score_cases row :
  spec_score row ytest pred_ pred_proba weights = PyInt 0
  \/ exists kw,
       tier row kw ytest pred_ pred_proba
       = Ok (spec_score row ytest pred_ pred_proba weights).
Proof.
  unfold spec_score.
  destruct (tier row [("sample_weight", weights)] ytest pred_ pred_proba)
    as [v1|e1] eqn:H1; [right; by eexists|].
  destruct (tier row [] ytest pred_ pred_proba) as [v2|e2] eqn:H2;
    [right; by eexists | by left].
Qed.

(** C1: for a row whose scoring function is truthy, the call is made with
    the [sample_weight] keyword and the row's arguments; if that raises, it
    is made again without the keyword; if that raises too, the score is the
    literal 0.  The log holds the calls that were made, so a tier that did
    not raise is the last one tried.  Neither [_calculate_metric] nor
    [calculate_metrics] raises, whatever the scoring functions do. *)
Theorem calculate_metric_three_tiers row :
  enabled row = true ->
  let target :=
    if String.eqb (Target row) "pred_proba" then pred_proba else pred_ in
  let first :=
    call_scorer (Score_Function row) [ytest; target]
                [("sample_weight", weights)] (Args row) in
  let second :=
    call_scorer (Score_Function row) [ytest; target] [] (Args row) in
  (forall v, fst first = Ok v ->
     _calculate_metric row ytest pred_ pred_proba weights
     = (Ok (Some (Display_Name row, v)), snd first))
  /\ (forall e v, fst first = Raise e -> fst second = Ok v ->
        _calculate_metric row ytest pred_ pred_proba weights
        = (Ok (Some (Display_Name row, v)), snd first ++ snd second))
  /\ (forall e e', fst first = Raise e -> fst second = Raise e' ->
        _calculate_metric row ytest pred_ pred_proba weights
        = (Ok (Some (Display_Name row, PyInt 0)), snd first ++ snd second))
  /\ (forall f, Score_Function row = CellFunc f ->
        "sample_weight" ∉ (Args row).*1 ->
        first = (f [ytest; target] (("sample_weight", weights) :: Args row),
                 [([ytest; target], ("sample_weight", weights) :: Args row)])
        /\ second = (f [ytest; target] (Args row), [([ytest; target], Args row)]))
  /\ (forall row', exists x,
        fst (_calculate_metric row' ytest pred_ pred_proba weights) = Ok x)
  /\ (forall metrics score_dict, exists d,
        fst (calculate_metrics metrics ytest pred_ pred_proba score_dict weights)
        = Ok d).
Proof.
  intros Hen target first second.
  assert (_calculate_metric row ytest pred_ pred_proba weights
          = match fst first with
            | Ok v => (Ok (Some (Display_Name row, v)), snd first)
            | Raise _ =>
                match fst second with
                | Ok v => (Ok (Some (Display_Name row, v)), snd first ++ snd second)
                | Raise _ =>
                    (Ok (Some (Display_Name row, PyInt 0)), snd first ++ snd second)
                end
            end) as Hcalc.
  { unfold _calculate_metric. unfold enabled in Hen. rewrite Hen. cbn [negb].
    fold target. fold first. fold second.
    destruct first as [[v1|e1] log1]; [done|].
    destruct second as [[v2|e2] log2]; done. }
  rewrite Hcalc.
  split; [by intros v ->|].
  split; [by intros e v -> ->|].
  split; [by intros e e' -> ->|].
  split.
  { intros f Hf Hfresh. subst first second. unfold call_scorer. rewrite Hf.
    cbn [map existsb orb fst].
    by rewrite (existsb_eqb_notin "sample_weight" (map fst (Args row)) Hfresh). }
  split.
  - intros row'. rewrite calculate_metric_fst. by eexists.
  - intros metrics score_dict. rewrite calculate_metrics_fst. by eexists.
Qed.

(** C4: with display names unique in the catalog (the invariant of the
    data model), the mapping [calculate_metrics] returns is the list of the
    rows with a truthy scoring function, in catalog order, each under its
    display name with its score; a row with a falsy scoring function has no
    entry; every value is the result of one of the two calls or the
    literal 0, hence a number when the scoring functions of the catalog
    return numbers. *)
Theorem calculate_metrics_mapping metrics score_dict :
  NoDup (map Display_Name metrics) ->
  exists d,
    fst (calculate_metrics metrics ytest pred_ pred_proba score_dict weights)
    = Ok d
    /\ d = map (fun row =>
                  (Display_Name row,
                   spec_score row ytest pred_ pred_proba weights))
               (filter enabled metrics)
    /\ NoDup d.*1
    /\ (forall row, row ∈ metrics -> enabled row = false ->
          dict_get (Display_Name row) d = None)
    /\ (forall row, row ∈ metrics -> enabled row = true ->
          dict_get (Display_Name row) d
          = Some (spec_score row ytest pred_ pred_proba weights))
    /\ (forall k v, dict_get k d = Some v ->
          exists row,
            row ∈ metrics /\ enabled row = true /\ k = Display_Name row
            /\ (v = PyInt 0
                \/ exists kw, tier row kw ytest pred_ pred_proba = Ok v))
    /\ ((forall row f args kwargs v,
           row ∈ metrics -> Score_Function row = CellFunc f ->
           f args kwargs = Ok v -> is_numeric v = true) ->
        forall k v, dict_get k d = Some v -> is_numeric v = true).
Proof.
  intros Hnd.
  assert (NoDup (map entry (filter enabled metrics)).*1) as Hnd'.
  { rewrite entries_names.
    eapply sublist_NoDup; [exact Hnd|].
    apply fmap_sublist, sublist_filter. }
  exists (map entry (filter enabled metrics)).
  split; [by rewrite calculate_metrics_fst, dict_NoDup|].
  split; [done|].
  split; [done|].
  split.
  { intros row Hin Hdis. apply dict_get_notin. rewrite entries_names.
    intros Hname. apply list_elem_of_fmap in Hname as (row' & Heq & Hin').
    apply list_elem_of_filter in Hin' as [Hen' Hin'].
    assert (row = row') as <- by (by eapply NoDup_names_inj).
    rewrite Hdis in Hen'. done. }
  split.
  { intros row Hin Hen. apply dict_get_in; [done|].
    apply list_elem_of_fmap. exists row. split; [done|].
    apply list_elem_of_filter. split; [by rewrite Hen | done]. }
  assert (forall k v, dict_get k (map entry (filter enabled metrics)) = Some v ->
            exists row,
              row ∈ metrics /\ enabled row = true /\ k = Display_Name row
              /\ (v = PyInt 0
                  \/ exists kw, tier row kw ytest pred_ pred_proba = Ok v))
    as Hvalues.
  { intros k v Hget. apply dict_get_elem in Hget.
    apply list_elem_of_fmap in Hget as (row & [= -> ->] & Hin).
    apply list_elem_of_filter in Hin as [Hen Hin].
    exists row. split; [done|]. split; [by apply Is_true_true|].
    split; [done|]. apply spec_score_cases. }
  split; [exact Hvalues|].
  intros Hnum k v Hget.
  destruct (Hvalues k v Hget) as (row & Hin & _ & _ & [->|[kw Htier]]); [done|].
  unfold tier, call_scorer in Htier.
  match type of Htier with
  | context [if ?b then _ else _] => destruct b; [done|]
  end.
  destruct (Score_Function row) as [o|f] eqn:Hf; [done|].
  by eapply Hnum.
Qed.
End MetricEngine.

Lemma calculate_metric_three_tiers_witness :
  _calculate_metric auc_row sample_ytest sample_pred sample_proba PyNone
  = (Ok (Some ("AUC", PyInt 0)),
     [([sample_ytest; sample_proba],
       [("sample_weight", PyNone); ("average", PyStr "weighted")]);
      ([sample_ytest; sample_proba], [("average", PyStr "weighted")])]).
Proof.
  pose proof (calculate_metric_three_tiers sample_ytest sample_pred sample_proba
                PyNone auc_row eq_refl) as H.
  cbv zeta in H. destruct H as (_ & _ & Hzero & _).
  exact (Hzero _ _ eq_refl eq_refl).
Defined.

Lemma calculate_metrics_mapping_witness :
  exists d,
    fst (calculate_metrics sample_metrics sample_ytest sample_pred sample_proba
           PyNone PyNone) = Ok d
    /\ d = [("Accuracy", PyFloat 4606281698874543309); ("AUC", PyInt 0)]
    /\ forall k v, dict_get k d = Some v -> is_numeric v = true.
Proof.
  assert (NoDup (map Display_Name sample_metrics)) as Hnd.
  { apply (bool_decide_unpack _). exact I. }
  destruct (calculate_metrics_mapping sample_ytest sample_pred sample_proba PyNone
              sample_metrics PyNone Hnd) as (d & Hd & Hlist & _ & _ & _ & _ & Hnum).
  exists d. split; [exact Hd|]. split; [exact Hlist|].
  apply Hnum. intros row f args kwargs v Hin Hf Hcall.
  repeat (apply elem_of_cons in Hin as [->|Hin]);
    [| discriminate Hf | | by apply elem_of_nil in Hin].
  - injection Hf as <-. unfold unweighted_score in Hcall.
    destruct (existsb _ _); [discriminate Hcall|]. by injection Hcall as <-.
  - injection Hf as <-. discriminate Hcall.
Defined.

(** ** The splitter selector *)

Section SplitterSelector.
Variables (strict : bool) (default : pyobj) (seed : Z) (shuffle : bool).
Implicit Types (fold : pyobj) (int_default : string).

Lemma int_not_cv_generator n : is_sklearn_cv_generator (PyInt n) = false.
Proof. done. Qed.

Lemma new_kfold_accepts (cls : Z -> Z -> bool -> pyobj) n :
  2 <= n -> strict = false \/ shuffle = true ->
  new_kfold strict cls n seed shuffle = Ok (cls n seed shuffle).
Proof.
  intros Hn Hshuffle. unfold new_kfold.
  destruct (Z.leb_spec n 1) as [|_]; [lia|].
  by destruct Hshuffle as [-> | ->]; [|rewrite andb_false_r].
Qed.

Lemma new_kfold_refuses (cls : Z -> Z -> bool -> pyobj) n :
  (n <= 1 -> new_kfold strict cls n seed shuffle = Raise (n_splits_error n))
  /\ (2 <= n -> strict = true -> shuffle = false ->
      new_kfold strict cls n seed shuffle = Raise random_state_error).
Proof.
  unfold new_kfold. split.
  - intros Hn. by destruct (Z.leb_spec n 1) as [_|]; [|lia].
  - intros Hn -> ->. by destruct (Z.leb_spec n 1) as [|_]; [lia|].
Qed.

(** C8, as the code has it: a falsy fold gives the default; otherwise a
    fold that is a splitter is returned as it is; otherwise an integer goes
    to the constructor of [KFold] or of [StratifiedKFold], by the strategy,
    with this fold count, seed and shuffle flag: the splitter comes back for
    a fold count of at least 2 (and a seed that the installed scikit-learn
    takes with this shuffle flag), the [ValueError] of the constructor
    otherwise; another strategy gives the [ValueError] of the selector; any
    other value gives the [TypeError] whose message has the value and its
    type. *)
Theorem get_cv_splitter_spec fold int_default :
  (truthy fold = false ->
     get_cv_splitter strict fold default seed shuffle int_default = Ok default)
  /\ (truthy fold = true -> is_sklearn_cv_generator fold = true ->
        get_cv_splitter strict fold default seed shuffle int_default = Ok fold)
  /\ (forall n, fold = PyInt n -> n <> 0 ->
        (int_default = "kfold" -> 2 <= n ->
         strict = false \/ shuffle = true ->
           get_cv_splitter strict fold default seed shuffle int_default
           = Ok (KFold n seed shuffle))
        /\ (int_default = "stratifiedkfold" -> 2 <= n ->
            strict = false \/ shuffle = true ->
              get_cv_splitter strict fold default seed shuffle int_default
              = Ok (StratifiedKFold n seed shuffle))
        /\ (int_default = "kfold" \/ int_default = "stratifiedkfold" ->
            n <= 1 ->
              get_cv_splitter strict fold default seed shuffle int_default
              = Raise (n_splits_error n))
        /\ (int_default = "kfold" \/ int_default = "stratifiedkfold" ->
            2 <= n -> strict = true -> shuffle = false ->
              get_cv_splitter strict fold default seed shuffle int_default
              = Raise random_state_error)
        /\ (int_default <> "kfold" -> int_default <> "stratifiedkfold" ->
              get_cv_splitter strict fold default seed shuffle int_default
              = Raise wrong_int_default))
  /\ (truthy fold = true -> is_sklearn_cv_generator fold = false ->
      type_is_int fold = false ->
        get_cv_splitter strict fold default seed shuffle int_default
        = Raise (TypeError [Fmt fold; Lit " is of type "; FmtType fold;
                   Lit " while it needs to be either a CV generator or int."])).
Proof.
  unfold get_cv_splitter.
  split; [by intros ->|].
  split; [by intros -> ->|].
  split.
  { intros n -> Hn. cbn [truthy].
    destruct (Z.eqb_spec n 0) as [|_]; [done|]. cbn [negb].
    rewrite int_not_cv_generator.
    split; [intros -> Hlow Hshuffle; by apply new_kfold_accepts|].
    split; [intros -> Hlow Hshuffle; by apply new_kfold_accepts|].
    split.
    { intros [-> | ->] Hlow; cbn; by apply new_kfold_refuses. }
    split.
    { intros [-> | ->] Hlow Hstrict Hshuffle; cbn; by apply new_kfold_refuses. }
    intros Hk Hs.
    destruct (String.eqb_spec int_default "kfold"); [done|].
    by destruct (String.eqb_spec int_default "stratifiedkfold"). }
  intros -> -> Hint. cbn [negb].
  by destruct fold.
Qed.
End SplitterSelector.

Lemma get_cv_splitter_spec_witness :
  get_cv_splitter false PyNone default_splitter 42 true "kfold"
  = Ok default_splitter
  /\ get_cv_splitter true (PyInt 5) default_splitter 42 true "kfold"
     = Ok (KFold 5 42 true)
  /\ get_cv_splitter true (PyInt 5) default_splitter 42 true "bogus"
     = Raise wrong_int_default
  /\ get_cv_splitter false (PyBool true) default_splitter 42 true "kfold"
     = Raise (wrong_fold (PyBool true)).
Proof.
  split; [|split; [|split]].
  - by apply (get_cv_splitter_spec false default_splitter 42 true PyNone "kfold").
  - destruct (get_cv_splitter_spec true default_splitter 42 true (PyInt 5) "kfold")
      as (_ & _ & Hint & _).
    destruct (Hint 5 eq_refl) as (Hkfold & _); [done|].
    apply Hkfold; [done | lia | by right].
  - destruct (get_cv_splitter_spec true default_splitter 42 true (PyInt 5) "bogus")
      as (_ & _ & Hint & _).
    destruct (Hint 5 eq_refl) as (_ & _ & _ & _ & Hother); [done|].
    by apply Hother.
  - by apply (get_cv_splitter_spec false default_splitter 42 true (PyBool true)
                "kfold").
Defined.

(** The integer case at a fold count of one, for either version of the
    constructor: no splitter is built, the constructor's [ValueError] comes
    out.  And a falsy value that has a [split], an empty [bytes]: the default
    is returned, not the value. *)
Lemma get_cv_splitter_one_fold :
  get_cv_splitter false (PyInt 1) default_splitter 42 true "kfold"
  = Raise (n_splits_error 1)
  /\ get_cv_splitter true (PyInt 1) default_splitter 42 true "kfold"
     = Raise (n_splits_error 1)
  /\ get_cv_splitter true (PyInt 1) default_splitter 42 true "kfold"
     <> Ok (KFold 1 42 true)
  /\ is_sklearn_cv_generator (PyFalsy "bytes" ["split"]) = true
  /\ get_cv_splitter true (PyFalsy "bytes" ["split"]) default_splitter 42 true
       "kfold"
     = Ok default_splitter.
Proof. split; [done|]. split; [done|]. split; [discriminate | done]. Qed.

(** ** The transformer normalizer *)

Section Normalizer.
Implicit Types (transformers : pyobj).

(** A value that passed the check and was wrapped is a pair whose first
    element is a text. *)
Lemma checked_first_is_str transformers :
  _check_custom_transformer transformers = Ok tt ->
  exists name, getitem0 (wrapped transformers) = Ok (PyStr name).
Proof.
  unfold _check_custom_transformer, wrapped.
  destruct transformers; try (intros _; by eexists).
  cbn [is_tuple].
  destruct elts as [|first [|second [|third elts]]]; try done.
  cbn. destruct first; try done. intros _. by eexists.
Qed.

(** The pair is not a pipeline: reading its [steps] raises. *)
Lemma pair_has_no_steps elts :
  exists e, getattr_steps (PyTuple elts) = Raise e.
Proof. by eexists. Qed.

(** The single-input branch of the normalizer. *)
Lemma normalize_single_branch transformers :
  is_list_or_dict transformers = false ->
  normalize_custom_transformers transformers
  = (_ ← _check_custom_transformer transformers;
     first ← getitem0 (wrapped transformers);
     if is_sklearn_pipeline first then getattr_steps (wrapped transformers)
     else Ok (PyList [wrapped transformers])).
Proof. by destruct transformers. Qed.

(** For a single input that is not a list, the normalizer returns, if it
    returns, the one-element list of the wrapped pair; the branch that
    would return a pipeline's steps is never taken. *)
Lemma normalize_single transformers r :
  is_list_or_dict transformers = false ->
  normalize_custom_transformers transformers = Ok r ->
  r = PyList [wrapped transformers].
Proof.
  intros Hsingle. rewrite (normalize_single_branch _ Hsingle).
  destruct (_check_custom_transformer transformers) as [[]|e] eqn:Hcheck; [|done].
  destruct (checked_first_is_str transformers Hcheck) as [name Hfirst].
  cbn. rewrite Hfirst. cbn. by intros [= <-].
Qed.


(** A pipeline given as the single input is such a value: it is wrapped
    under the name ["custom_step"], and the result is the one-element list
    that holds it as one step. *)
Example normalize_pipeline_input_nests :
  normalize_custom_transformers inner_pipeline
  = Ok (PyList [PyTuple [PyStr "custom_step"; inner_pipeline]])
  /\ getattr_steps inner_pipeline = Ok (steps_obj [("scale", scaler)]).
Proof. split; done. Qed.
End Normalizer.


(** ** The testable properties of the spec, on the sample values *)

Example normalize_mapping :
  normalize_custom_transformers
    (PyDict [(PyStr "A", scaler); (PyStr "B", encoder)])
  = Ok (PyList [PyTuple [PyStr "A"; scaler]; PyTuple [PyStr "B"; encoder]]).
Proof. reflexivity. Qed.

Example normalize_bare :
  normalize_custom_transformers scaler
  = Ok (PyList [PyTuple [PyStr "custom_step"; scaler]]).
Proof. reflexivity. Qed.

Example normalize_mixed_list :
  normalize_custom_transformers
    (PyList [scaler; PyTuple [PyStr "encode"; encoder]; encoder])
  = Ok (PyList [PyTuple [PyStr "custom_step_0"; scaler];
                PyTuple [PyStr "encode"; encoder];
                PyTuple [PyStr "custom_step_2"; encoder]]).
Proof. vm_compute. reflexivity. Qed.

Example normalize_missing_capability :
  exists e,
    normalize_custom_transformers (PyList [scaler; no_transform]) = Raise e
    /\ normalize_custom_transformers (PyList [no_transform; scaler]) = Raise e.
Proof. eexists. split; reflexivity. Qed.

Example normalize_bad_pair :
  normalize_custom_transformers (PyTuple [PyStr "a"; scaler; scaler])
  = Raise (ValueError [Lit "Transformer tuple must have a size of 2."])
  /\ normalize_custom_transformers (PyTuple [scaler; scaler])
     = Raise (TypeError [Lit "First element of transformer tuple must be a str."]).
Proof. split; reflexivity. Qed.

Example evaluate_raising_metric :
  fst (calculate_metrics [auc_row] sample_ytest sample_pred sample_proba
         PyNone PyNone)
  = Ok [("AUC", PyInt 0)].
Proof. reflexivity. Qed.

Example evaluate_disabled_metric :
  fst (calculate_metrics [kappa_row] sample_ytest sample_pred sample_proba
         PyNone PyNone)
  = Ok [].
Proof. reflexivity. Qed.

Example set_config_unknown :
  set_config "pycaret_globals" PyNone sample_globals
  = (Raise (not_found "pycaret_globals" known_names), sample_globals)
  /\ fst (set_config "verbose" PyNone sample_globals)
     = Raise (not_found "verbose" known_names).
Proof. split; vm_compute; reflexivity. Qed.

(** ** The fold count and the splitter selector together *)

Section FoldCount.
Variables (custom : string -> result pyobj) (strict : bool).

(** X1: the splitter that [get_cv_splitter] builds from an integer fold
    count reports this count to [get_cv_n_folds], which gives the same
    answer for the integer itself. *)
Theorem get_cv_n_folds_of_built_splitter (n : Z) (default : pyobj) (seed : Z)
  (shuffle : bool) (int_default : string) (splitter : pyobj) (default_folds : Z) :
  n <> 0 ->
  get_cv_splitter strict (PyInt n) default seed shuffle int_default = Ok splitter ->
  get_cv_n_folds custom splitter default_folds = Ok (PyInt n)
  /\ get_cv_n_folds custom (PyInt n) default_folds = Ok (PyInt n).
Proof.
  intros Hn. unfold get_cv_splitter, get_cv_n_folds, new_kfold. cbn [truthy].
  destruct (Z.eqb_spec n 0) as [|_]; [done|]. cbn.
  destruct (n <=? 1).
  { destruct (String.eqb int_default "kfold"); [done|].
    by destruct (String.eqb int_default "stratifiedkfold"). }
  destruct (strict && negb shuffle).
  { destruct (String.eqb int_default "kfold"); [done|].
    by destruct (String.eqb int_default "stratifiedkfold"). }
  destruct (String.eqb int_default "kfold").
  - by intros [= <-].
  - destruct (String.eqb int_default "stratifiedkfold"); [|done].
    by intros [= <-].
Qed.

(** X2: when the default is a splitter, whatever [get_cv_splitter] returns
    is a splitter; when the default is truthy as well, the result is truthy,
    and selecting again with the result as the fold gives the result back,
    whatever the other arguments.  (A falsy default that has a [split] comes
    back for a falsy fold, and as a fold it would give way to the default of
    the second call.) *)
Theorem get_cv_splitter_closed (fold default : pyobj) (seed : Z) (shuffle : bool)
  (int_default : string) (splitter : pyobj) :
  is_sklearn_cv_generator default = true ->
  get_cv_splitter strict fold default seed shuffle int_default = Ok splitter ->
  is_sklearn_cv_generator splitter = true
  /\ (truthy default = true ->
      truthy splitter = true
      /\ forall strict' default' seed' shuffle' int_default',
           get_cv_splitter strict' splitter default' seed' shuffle' int_default'
           = Ok splitter).
Proof.
  intros Hdefault Hget.
  assert (is_sklearn_cv_generator splitter = true
          /\ (truthy default = true -> truthy splitter = true)) as [Hcv Htruthy].
  { unfold get_cv_splitter, new_kfold in Hget.
    destruct (truthy fold) eqn:Hfold; cbn in Hget; [|by injection Hget as <-].
    destruct (is_sklearn_cv_generator fold) eqn:Hcvfold;
      [by injection Hget as <-|].
    destruct fold; try done.
    destruct (n <=? 1).
    { destruct (String.eqb int_default "kfold"); [done|].
      by destruct (String.eqb int_default "stratifiedkfold"). }
    destruct (strict && negb shuffle).
    { destruct (String.eqb int_default "kfold"); [done|].
      by destruct (String.eqb int_default "stratifiedkfold"). }
    destruct (String.eqb int_default "kfold"); [by injection Hget as <-|].
    destruct (String.eqb int_default "stratifiedkfold");
      [by injection Hget as <-|done]. }
  split; [done|]. intros Hdef. split; [by apply Htruthy|].
  intros strict' default' seed' shuffle' int_default'.
  unfold get_cv_splitter. by rewrite (Htruthy Hdef), Hcv.
Qed.
End FoldCount.

Lemma get_cv_n_folds_of_built_splitter_witness :
  get_cv_n_folds (fun _ => Ok PyNone) (StratifiedKFold 5 42 true) 10 = Ok (PyInt 5).
Proof.
  by apply (get_cv_n_folds_of_built_splitter (fun _ => Ok PyNone) true 5
              default_splitter 42 true "stratifiedkfold"
              (StratifiedKFold 5 42 true) 10).
Defined.

Lemma get_cv_splitter_closed_witness :
  get_cv_splitter true default_splitter PyNone 0 false "bogus"
  = Ok default_splitter.
Proof.
  destruct (get_cv_splitter_closed false PyNone default_splitter 42 true "kfold"
              default_splitter eq_refl eq_refl) as (_ & Hagain).
  by apply Hagain.
Defined.

(** ** The config store: reading back, failures, saving *)

Section ConfigStoreMore.
Implicit Types (globals_d : gmap string pyobj) (value : pyobj).
Implicit Types (variable k : string) (disk : gmap string (list (string * pyobj))).

(** A successful [set_config] leaves the entry of the known names alone. *)
Lemma set_config_known_names variable value globals_d :
  snd (set_config variable value globals_d) !! "pycaret_globals"
  = globals_d !! "pycaret_globals".
Proof.
  unfold set_config, getitem.
  destruct (globals_d !! "pycaret_globals") as [pg|] eqn:Hpg; [|done].
  destruct (py_in variable pg) as [known|]; [|done].
  destruct (String.eqb_spec variable "pycaret_globals") as [->|Hne].
  { by rewrite orb_true_r. }
  rewrite orb_false_r. destruct known; [|done]. cbn [negb].
  destruct (<[variable:=value]> globals_d !! "gpu_param") as [gp|]; cbn.
  - destruct (negb (truthy gp) && String.eqb variable "n_jobs_param"); cbn.
    + by rewrite !lookup_insert_ne.
    + by rewrite lookup_insert_ne.
  - by rewrite lookup_insert_ne.
Qed.

(** X3: after a successful [set_config], [get_config] of the same variable
    returns the value that was set. *)
Theorem get_config_after_set_config variable value globals_d :
  fst (set_config variable value globals_d) = Ok tt ->
  get_config variable (snd (set_config variable value globals_d)) = Ok value.
Proof.
  intros Hok. unfold get_config, getitem.
  rewrite set_config_known_names.
  revert Hok. unfold set_config, getitem.
  destruct (globals_d !! "pycaret_globals") as [pg|]; [|done].
  destruct (py_in variable pg) as [known|] eqn:Hknown; [|done].
  destruct known; [|done]. cbn [negb orb].
  destruct (String.eqb variable "pycaret_globals"); [done|].
  destruct (<[variable:=value]> globals_d !! "gpu_param") as [gp|]; [|done].
  cbn [mbind result_bind]. rewrite Hknown. cbn [negb].
  destruct (String.eqb_spec variable "n_jobs_param") as [->|Hne].
  - destruct (negb (truthy gp)); cbn; intros _.
    + rewrite lookup_insert_ne by done. by rewrite lookup_insert_eq.
    + by rewrite lookup_insert_eq.
  - rewrite andb_false_r. cbn. intros _. by rewrite lookup_insert_eq.
Qed.

(** X4: a [set_config] that raises leaves the store as it was, with one
    exception: when the name is accepted and the store has no ["gpu_param"]
    entry, the [KeyError] for that entry comes after the assignment, and the
    store holds the new value. *)
Theorem set_config_failure variable value globals_d (e : pyexn) :
  fst (set_config variable value globals_d) = Raise e ->
  snd (set_config variable value globals_d) = globals_d
  \/ (e = KeyError "gpu_param"
      /\ variable <> "gpu_param"
      /\ globals_d !! "gpu_param" = None
      /\ snd (set_config variable value globals_d)
         = <[variable := value]> globals_d).
Proof.
  unfold set_config, getitem.
  destruct (globals_d !! "pycaret_globals") as [pg|]; [|by left].
  destruct (py_in variable pg) as [known|]; [|by left].
  destruct (negb known || String.eqb variable "pycaret_globals"); [by left|].
  cbn zeta.
  destruct (<[variable:=value]> globals_d !! "gpu_param") as [gp|] eqn:Hgp.
  - by destruct (negb (truthy gp) && String.eqb variable "n_jobs_param").
  - cbn. intros [= <-]. right.
    apply lookup_insert_None in Hgp as [Hnone Hne]. done.
Qed.

(** X5: a successful [set_config] does not change what [get_config] answers
    for any other name, the name ["gpu_n_jobs_param"] apart. *)
Theorem get_config_other_after_set_config variable value globals_d k :
  fst (set_config variable value globals_d) = Ok tt ->
  k <> variable -> k <> "gpu_n_jobs_param" ->
  get_config k (snd (set_config variable value globals_d))
  = get_config k globals_d.
Proof.
  intros Hok Hk Hgpu. unfold get_config, getitem.
  rewrite set_config_known_names.
  assert (snd (set_config variable value globals_d) !! k = globals_d !! k) as ->;
    [|done].
  revert Hok. unfold set_config, getitem.
  destruct (globals_d !! "pycaret_globals") as [pg|]; [|done].
  destruct (py_in variable pg) as [known|]; [|done].
  destruct (negb known || String.eqb variable "pycaret_globals"); [done|].
  cbn zeta.
  destruct (<[variable:=value]> globals_d !! "gpu_param") as [gp|]; [|done].
  destruct (negb (truthy gp) && String.eqb variable "n_jobs_param"); cbn; intros _.
  - by rewrite !lookup_insert_ne.
  - by rewrite lookup_insert_ne.
Qed.

(** The comprehension of [save_config] keeps nothing else. *)
Lemma globals_to_dump_known globals_d items dumped k value :
  globals_to_dump globals_d items = Ok dumped ->
  (k, value) ∈ dumped ->
  (k, value) ∈ items
  /\ exists pycaret_globals,
       globals_d !! "pycaret_globals" = Some pycaret_globals
       /\ py_in k pycaret_globals = Ok true.
Proof.
  revert dumped.
  induction items as [|[k' v'] rest IH]; intros dumped Hdump Hin.
  - injection Hdump as <-. by apply elem_of_nil in Hin.
  - cbn in Hdump. unfold getitem in Hdump.
    destruct (globals_d !! "pycaret_globals") as [pg|] eqn:Hpg; [|done].
    cbn in Hdump.
    destruct (py_in k' pg) as [known|] eqn:Hknown; [|done].
    cbn in Hdump.
    destruct (globals_to_dump globals_d rest) as [dumped'|] eqn:Hrest; [|done].
    cbn in Hdump. injection Hdump as <-.
    destruct known.
    + apply elem_of_cons in Hin as [[= -> ->]|Hin].
      * split; [left | by exists pg].
      * destruct (IH dumped' eq_refl Hin) as [Hitems Hk]. split; [by right|done].
    + destruct (IH dumped' eq_refl Hin) as [Hitems Hk]. split; [by right|done].
Qed.

(** X6: what [save_config] writes: under the file name, the entries of the
    store whose names are in the known set, each once, and nothing else; the
    other files are untouched. *)
Theorem save_config_dumps_known file_name globals_d disk disk' :
  save_config file_name globals_d disk = Ok disk' ->
  exists dumped,
    disk' !! file_name = Some dumped
    /\ NoDup dumped.*1
    /\ (forall k value,
          (k, value) ∈ dumped <->
          globals_d !! k = Some value
          /\ exists pycaret_globals,
               globals_d !! "pycaret_globals" = Some pycaret_globals
               /\ py_in k pycaret_globals = Ok true)
    /\ forall other, other <> file_name -> disk' !! other = disk !! other.
Proof.
  unfold save_config. intros Hsave.
  destruct (globals_to_dump globals_d (map_to_list globals_d)) as [dumped|]
    eqn:Hdump; [|done].
  cbn in Hsave. injection Hsave as <-.
  exists dumped. split; [apply lookup_insert_eq|].
  destruct (globals_to_dump_elem _ _ _ Hdump) as [Hsub Hkeep].
  split.
  { eapply sublist_NoDup; [apply (NoDup_fst_map_to_list globals_d)|].
    by apply fmap_sublist. }
  split.
  - intros k value. split.
    + intros Hin.
      destruct (globals_to_dump_known _ _ _ _ _ Hdump Hin) as [Hitems Hk].
      split; [by apply elem_of_map_to_list|done].
    + intros [Hk (pg & Hpg & Hknown)].
      apply (Hkeep k value pg); [by apply elem_of_map_to_list|done..].
  - intros other Hother. by rewrite lookup_insert_ne.
Qed.

Lemma install_same globals_d (loaded_globals : list (string * pyobj)) :
  (forall k value, (k, value) ∈ loaded_globals -> globals_d !! k = Some value) ->
  install globals_d loaded_globals = globals_d.
Proof.
  revert globals_d.
  induction loaded_globals as [|[k v] rest IH]; intros globals_d Hsame; [done|].
  rewrite install_cons.
  rewrite insert_id by (apply Hsame; left).
  apply IH. intros k' v' Hin. apply Hsame. by right.
Qed.

(** X7: saving a store and loading the file back into the same store gives
    the store back, but for the ["logger"] entry, which is the current
    logger. *)
Theorem load_config_after_save_config file_name globals_d disk disk' :
  save_config file_name globals_d disk = Ok disk' ->
  load_config file_name globals_d disk'
  = (Ok tt, <["logger" := get_logger]> globals_d).
Proof.
  intros Hsave.
  destruct (save_config_dumps_known _ _ _ _ Hsave) as (dumped & Hfile & _ & Hin & _).
  unfold load_config. rewrite Hfile. cbn zeta.
  rewrite install_same; [done|].
  intros k value Hk. by apply Hin in Hk as [Hk _].
Qed.

(** X8: loading a file that [save_config] wrote, into any store, leaves
    every name outside the saved store's known set as the store had it: the
    name of the logger apart, nothing unknown comes in through a saved
    file. *)
Theorem load_saved_keeps_unknown file_name globals_d saved_globals disk disk'
  (pycaret_globals : pyobj) k :
  save_config file_name saved_globals disk = Ok disk' ->
  saved_globals !! "pycaret_globals" = Some pycaret_globals ->
  py_in k pycaret_globals <> Ok true ->
  k <> "logger" ->
  fst (load_config file_name globals_d disk') = Ok tt
  /\ snd (load_config file_name globals_d disk') !! k = globals_d !! k.
Proof.
  intros Hsave Hpg Hunknown Hlogger.
  destruct (save_config_dumps_known _ _ _ _ Hsave) as (dumped & Hfile & _ & Hin & _).
  unfold load_config. rewrite Hfile. cbn. split; [done|].
  rewrite lookup_insert_ne by done.
  apply install_lookup_notin.
  intros Hk. apply list_elem_of_fmap in Hk as ([k' v] & -> & Hkv).
  apply Hin in Hkv as [_ (pg & Hpg' & Hknown)]. cbn in Hunknown.
  congruence.
Qed.
End ConfigStoreMore.

Lemma get_config_after_set_config_witness :
  get_config "n_jobs_param"
    (snd (set_config "n_jobs_param" (PyInt 4) sample_globals)) = Ok (PyInt 4).
Proof.
  apply (get_config_after_set_config "n_jobs_param" (PyInt 4) sample_globals).
  reflexivity.
Defined.

Lemma set_config_failure_witness :
  snd (set_config "seed" (PyInt 9) bare_globals) = bare_globals
  \/ (KeyError "gpu_param" = KeyError "gpu_param"
      /\ "seed" <> "gpu_param"
      /\ bare_globals !! "gpu_param" = None
      /\ snd (set_config "seed" (PyInt 9) bare_globals)
         = <["seed" := PyInt 9]> bare_globals).
Proof.
  apply (set_config_failure "seed" (PyInt 9) bare_globals (KeyError "gpu_param")).
  reflexivity.
Defined.

Lemma get_config_other_after_set_config_witness :
  get_config "seed" (snd (set_config "n_jobs_param" (PyInt 4) sample_globals))
  = get_config "seed" sample_globals.
Proof.
  apply (get_config_other_after_set_config "n_jobs_param" (PyInt 4)
           sample_globals "seed"); [reflexivity | discriminate | discriminate].
Defined.

Lemma save_config_dumps_known_witness :
  exists disk' dumped,
    save_config "myvars.pkl" bare_globals sample_disk = Ok disk'
    /\ disk' !! "myvars.pkl" = Some dumped
    /\ NoDup dumped.*1.
Proof.
  eexists. 
  assert (save_config "myvars.pkl" bare_globals sample_disk = Ok _) as Hsave
    by (vm_compute; reflexivity).
  destruct (save_config_dumps_known _ _ _ _ Hsave) as (dumped & Hfile & Hnd & _).
  exists dumped. split; [exact Hsave|]. split; [exact Hfile | exact Hnd].
Defined.

Lemma load_config_after_save_config_witness :
  exists disk',
    save_config "myvars.pkl" sample_globals sample_disk = Ok disk'
    /\ load_config "myvars.pkl" sample_globals disk'
       = (Ok tt, <["logger" := get_logger]> sample_globals).
Proof.
  eexists.
  assert (save_config "myvars.pkl" sample_globals sample_disk = Ok _) as Hsave
    by (vm_compute; reflexivity).
  split; [exact Hsave|].
  exact (load_config_after_save_config _ _ _ _ Hsave).
Defined.

Lemma load_saved_keeps_unknown_witness :
  exists disk',
    save_config "myvars.pkl" sample_globals sample_disk = Ok disk'
    /\ snd (load_config "myvars.pkl" bare_globals disk') !! "not_a_variable"
       = bare_globals !! "not_a_variable".
Proof.
  eexists.
  assert (save_config "myvars.pkl" sample_globals sample_disk = Ok _) as Hsave
    by (vm_compute; reflexivity).
  split; [exact Hsave|].
  apply (load_saved_keeps_unknown "myvars.pkl" bare_globals sample_globals
           sample_disk _ known_names "not_a_variable" Hsave);
    [reflexivity | discriminate | discriminate].
Defined.

(** ** The transformer normalizer on lists and mappings *)

Section NormalizerLists.
Implicit Types (x transformers : pyobj) (l r : list pyobj) (i j : nat).

(** A checked value, once wrapped, is a pair that passes the check. *)
Lemma check_wrapped x (name : string) :
  _check_custom_transformer x = Ok tt ->
  _check_custom_transformer (if is_tuple x then x else PyTuple [PyStr name; x])
  = Ok tt.
Proof. by destruct x. Qed.

Lemma is_tuple_wrapped x (name : string) :
  is_tuple (if is_tuple x then x else PyTuple [PyStr name; x]) = true.
Proof. by destruct x. Qed.

Lemma normalize_list_cons i x l :
  normalize_list i (x :: l)
  = (_ ← _check_custom_transformer x;
     rest ← normalize_list (S i) l;
     Ok ((if is_tuple x then x
          else PyTuple [PyStr ("custom_step_" +:+ pretty i); x]) :: rest)).
Proof. done. Qed.

(** Pairs that pass the check are left as they are. *)
Lemma normalize_list_pairs i l :
  Forall (fun x => _check_custom_transformer x = Ok tt /\ is_tuple x = true) l ->
  normalize_list i l = Ok l.
Proof.
  intros Hall. revert i.
  induction Hall as [|x l [Hcheck Htuple] _ IH]; intros i; [done|].
  rewrite normalize_list_cons, Hcheck, Htuple. cbn. by rewrite IH.
Qed.

Lemma normalize_list_result i l r :
  normalize_list i l = Ok r ->
  length r = length l
  /\ Forall (fun x => _check_custom_transformer x = Ok tt /\ is_tuple x = true) r
  /\ forall j x, l !! j = Some x ->
       r !! j = Some (if is_tuple x then x
                      else PyTuple [PyStr ("custom_step_" +:+ pretty (i + j)%nat); x]).
Proof.
  revert i r. induction l as [|x l IH]; intros i r Hnorm.
  - injection Hnorm as <-. done.
  - rewrite normalize_list_cons in Hnorm.
    destruct (_check_custom_transformer x) as [[]|e] eqn:Hcheck; [|done].
    cbn in Hnorm.
    destruct (normalize_list (S i) l) as [rest|e] eqn:Hrest; [|done].
    cbn in Hnorm. injection Hnorm as <-.
    destruct (IH (S i) rest Hrest) as (Hlen & Hall & Hnth).
    split; [cbn; by rewrite Hlen|].
    split.
    + constructor; [|done].
      split; [by apply check_wrapped | apply is_tuple_wrapped].
    + intros [|j] y Hy.
      * injection Hy as <-. cbn. by rewrite Nat.add_0_r.
      * replace (i + S j)%nat with (S i + j)%nat by lia.
        exact (Hnth j y Hy).
Qed.

(** X9: on a list, a successful normalization returns a list of the same
    length; at each position, the pair that was there, or the element that
    was there under the name [custom_step_] followed by the position. *)
Theorem normalize_list_positions l (result_obj : pyobj) :
  normalize_custom_transformers (PyList l) = Ok result_obj ->
  exists r,
    result_obj = PyList r
    /\ length r = length l
    /\ forall j x, l !! j = Some x ->
         r !! j = Some (if is_tuple x then x
                        else PyTuple [PyStr ("custom_step_" +:+ pretty j); x]).
Proof.
  cbn. destruct (normalize_list 0 l) as [r|e] eqn:Hnorm; [|done].
  cbn. intros [= <-]. exists r. split; [done|].
  destruct (normalize_list_result 0 l r Hnorm) as (Hlen & _ & Hnth). done.
Qed.

(** X10: a normalized value normalizes to itself: whatever the input was (a
    single transformer, a pair, a list, a mapping), normalizing the result
    again gives the same result. *)
Theorem normalize_idempotent transformers (result_obj : pyobj) :
  normalize_custom_transformers transformers = Ok result_obj ->
  normalize_custom_transformers result_obj = Ok result_obj.
Proof.
  intros Hnorm.
  assert (exists r,
             result_obj = PyList r
             /\ Forall (fun x => _check_custom_transformer x = Ok tt
                                 /\ is_tuple x = true) r)
    as (r & -> & Hall).
  { destruct (is_list_or_dict transformers) eqn:Hkind.
    - assert (exists l, normalize_custom_transformers transformers
                        = (elts ← normalize_list 0 l; Ok (PyList elts)))
        as [l Hl] by (destruct transformers; try done; by eexists).
      rewrite Hl in Hnorm.
      destruct (normalize_list 0 l) as [r|e] eqn:Hr; [|done].
      cbn in Hnorm. injection Hnorm as <-. exists r. split; [done|].
      by destruct (normalize_list_result 0 l r Hr) as (_ & Hall & _).
    - pose proof (normalize_single transformers result_obj Hkind Hnorm) as ->.
      eexists. split; [done|].
      rewrite (normalize_single_branch _ Hkind) in Hnorm.
      destruct (_check_custom_transformer transformers) as [[]|e] eqn:Hcheck;
        [|done].
      constructor; [|done]. unfold wrapped.
      split; [by apply check_wrapped | apply is_tuple_wrapped]. }
  cbn. by rewrite (normalize_list_pairs 0 r Hall).
Qed.

(** X11: in a list, the first element that fails the check decides: the
    normalization raises what the check of this element raises, wherever
    the element is. *)
Theorem normalize_list_first_failure (before after : list pyobj) x (e : pyexn) :
  Forall (fun y => _check_custom_transformer y = Ok tt) before ->
  _check_custom_transformer x = Raise e ->
  normalize_custom_transformers (PyList (before ++ x :: after)) = Raise e.
Proof.
  intros Hbefore Hx. cbn.
  assert (forall i, normalize_list i (before ++ x :: after) = Raise e) as ->; [|done].
  induction Hbefore as [|y before Hy _ IH]; intros i.
  - cbn [app]. by rewrite normalize_list_cons, Hx.
  - cbn [app]. rewrite normalize_list_cons, Hy. cbn. by rewrite IH.
Qed.

(** X12: a mapping from texts to values that have [fit], [transform] and
    [fit_transform] normalizes to the list of its (key, value) pairs, in the
    order of the mapping. *)
Theorem normalize_mapping_order (items : list (pyobj * pyobj)) :
  Forall (fun kv => is_str (fst kv) = true
                    /\ hasattr (snd kv) "fit" = true
                    /\ hasattr (snd kv) "transform" = true
                    /\ hasattr (snd kv) "fit_transform" = true) items ->
  normalize_custom_transformers (PyDict items)
  = Ok (PyList (map (fun kv => PyTuple [fst kv; snd kv]) items)).
Proof.
  intros Hitems. cbn. rewrite normalize_list_pairs; [done|].
  unfold items_obj. apply Forall_fmap.
  eapply Forall_impl; [exact Hitems|].
  intros [k v] (Hk & Hfit & Htransform & Hboth). cbn in *.
  split; [|done]. unfold _check_custom_transformer. cbn.
  destruct k; try done. cbn. by rewrite Hfit, Htransform, Hboth.
Qed.
End NormalizerLists.

Lemma normalize_list_positions_witness :
  exists r,
    PyList [PyTuple [PyStr "custom_step_0"; scaler];
            PyTuple [PyStr "encode"; encoder]] = PyList r
    /\ length r = 2%nat
    /\ forall j x, [scaler; PyTuple [PyStr "encode"; encoder]] !! j = Some x ->
         r !! j = Some (if is_tuple x then x
                        else PyTuple [PyStr ("custom_step_" +:+ pretty j); x]).
Proof.
  apply (normalize_list_positions [scaler; PyTuple [PyStr "encode"; encoder]]).
  vm_compute. reflexivity.
Defined.

Lemma normalize_idempotent_witness :
  normalize_custom_transformers
    (PyList [PyTuple [PyStr "custom_step"; scaler]])
  = Ok (PyList [PyTuple [PyStr "custom_step"; scaler]]).
Proof. apply (normalize_idempotent scaler). reflexivity. Defined.

Lemma normalize_list_first_failure_witness :
  normalize_custom_transformers (PyList ([scaler] ++ no_transform :: [encoder]))
  = Raise (TypeError [Lit "Transformer must be an object implementing methods 'fit', 'transform' and 'fit_transform'."]).
Proof.
  apply normalize_list_first_failure; [|reflexivity].
  constructor; [reflexivity | constructor].
Defined.

Lemma normalize_mapping_order_witness :
  normalize_custom_transformers (PyDict [(PyStr "B", scaler); (PyStr "A", encoder)])
  = Ok (PyList [PyTuple [PyStr "B"; scaler]; PyTuple [PyStr "A"; encoder]]).
Proof.
  apply (normalize_mapping_order [(PyStr "B", scaler); (PyStr "A", encoder)]).
  repeat constructor.
Defined.

(** ** The metric engine: repeated names, distinct keys, calls made *)

Section MetricEngineMore.
Variables ytest pred_ pred_proba weights : pyobj.
Implicit Types (row : metric_row) (metrics : list metric_row) (k : string).

Lemma dict_get_setitem {V} k k' (v : V) (m : list (string * V)) :
  dict_get k (dict_setitem k' v m)
  = if String.eqb k' k then Some v else dict_get k m.
Proof.
  induction m as [|[k0 v0] m IH]; cbn.
  - by destruct (String.eqb k' k).
  - destruct (String.eqb_spec k0 k') as [->|Hne]; cbn.
    + by destruct (String.eqb k' k).
    + destruct (String.eqb_spec k0 k) as [->|Hne'].
      * by destruct (String.eqb_spec k' k) as [->|_].
      * exact IH.
Qed.

Lemma dict_get_app {V} k (m1 m2 : list (string * V)) :
  dict_get k (m1 ++ m2)
  = match dict_get k m1 with
    | Some v => Some v
    | None => dict_get k m2
    end.
Proof.
  induction m1 as [|[k0 v0] m1 IH]; [done|].
  cbn. by destruct (String.eqb k0 k).
Qed.

(** Looking a key up in [dict pairs] finds the last pair with this key. *)
Lemma dict_get_foldl {V} k (pairs acc : list (string * V)) :
  dict_get k (foldl (fun m kv => dict_setitem (fst kv) (snd kv) m) acc pairs)
  = match dict_get k (reverse pairs) with
    | Some v => Some v
    | None => dict_get k acc
    end.
Proof.
  revert acc. induction pairs as [|[k0 v0] pairs IH]; intros acc; [done|].
  cbn [foldl fst snd]. rewrite IH, reverse_cons, dict_get_app, dict_get_setitem.
  cbn. by destruct (dict_get k (reverse pairs)), (String.eqb k0 k).
Qed.

Lemma dict_setitem_keys {V} k (v : V) (m : list (string * V)) :
  (dict_setitem k v m).*1 = if bool_decide (k ∈ m.*1) then m.*1 else m.*1 ++ [k].
Proof.
  induction m as [|[k0 v0] m IH]; [done|].
  cbn. destruct (String.eqb_spec k0 k) as [->|Hne].
  - cbn. rewrite bool_decide_eq_true_2; [done | left].
  - cbn. rewrite IH. destruct (decide (k ∈ m.*1)) as [Hin|Hnotin].
    + rewrite !bool_decide_eq_true_2; [done | by right | done].
    + rewrite !bool_decide_eq_false_2; [done | | done].
      intros Hor. apply elem_of_cons in Hor as [?|?]; congruence.
Qed.

Lemma dict_keys {V} (pairs acc : list (string * V)) :
  NoDup acc.*1 ->
  let d := foldl (fun m kv => dict_setitem (fst kv) (snd kv) m) acc pairs in
  NoDup d.*1
  /\ (forall k, k ∈ d.*1 -> k ∈ acc.*1 \/ k ∈ pairs.*1)
  /\ (length d <= length acc + length pairs)%nat.
Proof.
  revert acc. induction pairs as [|[k0 v0] pairs IH]; intros acc Hnd; cbn zeta.
  - cbn. split; [done|]. split; [by left | lia].
  - cbn [foldl fst snd].
    assert (NoDup (dict_setitem k0 v0 acc).*1) as Hnd'.
    { rewrite dict_setitem_keys. case_bool_decide as Hin; [done|].
      apply NoDup_app. split; [done|]. split; [|apply NoDup_singleton].
      intros x Hx Hx'. apply list_elem_of_singleton in Hx' as ->. done. }
    destruct (IH _ Hnd') as (H1 & H2 & H3). split; [done|]. split.
    + intros k Hk. destruct (H2 k Hk) as [Hacc|Hpairs]; [|right; by right].
      rewrite dict_setitem_keys in Hacc. case_bool_decide; [by left|].
      apply elem_of_app in Hacc as [Hacc|Hacc]; [by left|].
      apply list_elem_of_singleton in Hacc as ->. right. left.
    + assert (length (dict_setitem k0 v0 acc) <= S (length acc))%nat.
      { rewrite <- !(length_fmap fst), dict_setitem_keys.
        case_bool_decide; [lia|]. rewrite length_app. cbn. lia. }
      cbn. lia.
Qed.

(** X13: without any assumption on the names: when several rows with a
    truthy scoring function share a display name, the mapping holds the score
    of the last of them under this name. *)
Theorem calculate_metrics_last_row_wins (before after : list metric_row) row
  (score_dict : pyobj) :
  enabled row = true ->
  Forall (fun later => enabled later = true ->
                       Display_Name later <> Display_Name row) after ->
  exists d,
    fst (calculate_metrics (before ++ row :: after) ytest pred_ pred_proba
           score_dict weights) = Ok d
    /\ dict_get (Display_Name row) d
       = Some (spec_score row ytest pred_ pred_proba weights).
Proof.
  intros Hen Hafter. eexists. split; [apply calculate_metrics_fst|].
  unfold dict. rewrite dict_get_foldl.
  rewrite filter_app, filter_cons.
  case_decide as Hrow; [|by rewrite Hen in Hrow].
  rewrite fmap_app, fmap_cons, reverse_app, reverse_cons, <- app_assoc.
  rewrite dict_get_app.
  rewrite dict_get_notin.
  - cbn. by rewrite String.eqb_refl.
  - intros Hin. apply list_elem_of_fmap in Hin as ([k v] & Hk & Hin).
    apply elem_of_reverse, list_elem_of_fmap in Hin as (later & [= -> ->] & Hin).
    apply list_elem_of_filter in Hin as [Hlater Hin].
    rewrite Forall_forall in Hafter.
    apply (Hafter later Hin); [by apply Is_true_true | done].
Qed.

(** X14: whatever the catalog, the keys of the mapping are distinct, each
    is the display name of a row with a truthy scoring function, and the
    mapping has no more entries than there are such rows. *)
Theorem calculate_metrics_keys metrics (score_dict : pyobj) :
  exists d,
    fst (calculate_metrics metrics ytest pred_ pred_proba score_dict weights)
    = Ok d
    /\ NoDup d.*1
    /\ (forall k, k ∈ d.*1 ->
          exists row, row ∈ metrics /\ enabled row = true /\ Display_Name row = k)
    /\ (length d <= length (filter enabled metrics))%nat.
Proof.
  eexists. split; [apply calculate_metrics_fst|].
  destruct (dict_keys
              (map (score_entry ytest pred_ pred_proba weights)
                   (filter enabled metrics)) [] (NoDup_nil_2))
    as (Hnd & Hkeys & Hlen).
  split; [exact Hnd|]. split.
  - intros k Hk. destruct (Hkeys k Hk) as [Hnil|Hin]; [by apply elem_of_nil in Hnil|].
    apply list_elem_of_fmap in Hin as ([k' v] & -> & Hin).
    apply list_elem_of_fmap in Hin as (row & [= -> ->] & Hin).
    apply list_elem_of_filter in Hin as [Hen Hin].
    exists row. split; [done|]. split; [by apply Is_true_true | done].
  - unfold dict. cbn in Hlen. by rewrite length_map in Hlen.
Qed.

Lemma call_scorer_log (c : cell) (args : list pyobj)
  (kw starred : list (string * pyobj)) :
  (length (snd (call_scorer c args kw starred)) <= 1)%nat
  /\ Forall (fun event => fst event = args) (snd (call_scorer c args kw starred)).
Proof.
  unfold call_scorer.
  destruct (existsb _ (map fst kw)); [cbn; split; [lia | constructor]|].
  destruct c; cbn; split; try lia; by repeat constructor.
Qed.

Lemma calculate_metric_log row :
  let log := snd (_calculate_metric row ytest pred_ pred_proba weights) in
  (length log <= if enabled row then 2 else 0)%nat
  /\ Forall (fun event => fst event = [ytest; pred_]
                          \/ fst event = [ytest; pred_proba]) log.
Proof.
  unfold _calculate_metric, enabled.
  destruct (cell_truthy (Score_Function row)); cbn [negb];
    [|cbn; split; [lia | constructor]].
  set (target := if String.eqb (Target row) "pred_proba" then pred_proba else pred_).
  assert (forall event : call_event,
             fst event = [ytest; target] ->
             fst event = [ytest; pred_] \/ fst event = [ytest; pred_proba]) as Htarget.
  { intros event ->. subst target.
    destruct (String.eqb (Target row) "pred_proba"); [by right | by left]. }
  pose proof (call_scorer_log (Score_Function row) [ytest; target]
                [("sample_weight", weights)] (Args row)) as [Hlen1 Hargs1].
  pose proof (call_scorer_log (Score_Function row) [ytest; target]
                [] (Args row)) as [Hlen2 Hargs2].
  destruct (call_scorer _ _ [("sample_weight", weights)] _) as [[v1|e1] log1].
  - cbn in *. split; [lia|]. eapply Forall_impl; [exact Hargs1 | exact Htarget].
  - destruct (call_scorer _ _ [] _) as [[v2|e2] log2]; cbn in *;
      (split; [rewrite length_app; lia|]);
      apply Forall_app; split; eapply Forall_impl; eauto.
Qed.

Lemma calculate_metrics_rows_log metrics :
  let log := snd (calculate_metrics_rows metrics ytest pred_ pred_proba weights) in
  (length log <= 2 * length (filter enabled metrics))%nat
  /\ Forall (fun event => fst event = [ytest; pred_]
                          \/ fst event = [ytest; pred_proba]) log.
Proof.
  induction metrics as [|row rest IH]; cbn zeta; [cbn; split; [lia | constructor]|].
  cbn [calculate_metrics_rows].
  pose proof (calculate_metric_log row) as [Hlen Hargs]. cbn zeta in *.
  pose proof (calculate_metric_fst ytest pred_ pred_proba weights row) as Hfst.
  destruct (_calculate_metric row ytest pred_ pred_proba weights) as [r log].
  cbn in Hfst, Hlen, Hargs. subst r.
  destruct IH as [IHlen IHargs].
  destruct (calculate_metrics_rows rest ytest pred_ pred_proba weights)
    as [rs log'].
  cbn [snd] in IHlen, IHargs |- *. rewrite filter_cons, length_app. split.
  - destruct (enabled row); case_decide; cbn [length]; try done; lia.
  - by apply Forall_app.
Qed.

(** X15: one evaluation makes at most two calls of scoring functions for
    each row with a truthy scoring function, counted over the catalog (none
    at all when no row has one); every call gets the true values first and
    the predictions or the probabilities second. *)
Theorem calculate_metrics_calls metrics (score_dict : pyobj) :
  let log :=
    snd (calculate_metrics metrics ytest pred_ pred_proba score_dict weights) in
  (length log <= 2 * length (filter enabled metrics))%nat
  /\ Forall (fun event => fst event = [ytest; pred_]
                          \/ fst event = [ytest; pred_proba]) log.
Proof.
  unfold calculate_metrics.
  pose proof (calculate_metrics_rows_log metrics) as Hlog. cbn zeta in Hlog.
  by destruct (calculate_metrics_rows metrics ytest pred_ pred_proba weights).
Qed.
End MetricEngineMore.

Lemma calculate_metrics_last_row_wins_witness :
  exists d,
    fst (calculate_metrics ([auc_row] ++ accuracy_row :: [kappa_row])
           sample_ytest sample_pred sample_proba PyNone PyNone) = Ok d
    /\ dict_get "Accuracy" d
       = Some (spec_score accuracy_row sample_ytest sample_pred sample_proba PyNone).
Proof.
  apply (calculate_metrics_last_row_wins sample_ytest sample_pred sample_proba
           PyNone [auc_row] [kappa_row] accuracy_row PyNone); [reflexivity|].
  constructor; [discriminate | constructor].
Defined.

(** ** The pipeline composer: repeated exits, what the body leaves *)

Section ComposerMore.
Implicit Types (pipeline : Pipeline) (estimator : pyobj).

Lemma no_estimator_last (l : list (string * pyobj)) (step : string * pyobj) :
  no_estimator_step l = true -> last l = Some step ->
  String.eqb (fst step) "actual_estimator" = false.
Proof.
  intros Hno Hlast. apply last_Some in Hlast as [l' ->].
  unfold no_estimator_step in Hno. rewrite forallb_app in Hno.
  apply andb_prop in Hno as [_ Hstep]. cbn in Hstep.
  unfold is_estimator_step in Hstep. by destruct (String.eqb (fst step) _).
Qed.

(** X16: on a pipeline that satisfies the step invariant, a second removal
    right after the first changes nothing; it raises [IndexError] when the
    first one left no step at all. *)
Theorem remove_estimator_twice pipeline :
  step_invariant (steps pipeline) = true ->
  remove_estimator_from_pipeline (snd (remove_estimator_from_pipeline pipeline))
  = match steps (snd (remove_estimator_from_pipeline pipeline)) with
    | [] => (Raise (IndexError [Lit "list index out of range"]),
             snd (remove_estimator_from_pipeline pipeline))
    | _ :: _ => (Ok tt, snd (remove_estimator_from_pipeline pipeline))
    end.
Proof.
  intros Hinv.
  destruct (steps pipeline) as [|step l] eqn:Hsteps using rev_ind.
  { unfold remove_estimator_from_pipeline. rewrite Hsteps. cbn.
    by rewrite Hsteps. }
  clear IHl.
  assert (last (steps pipeline) = Some step) as Hlast
    by (rewrite Hsteps; apply last_snoc).
  rewrite (remove_last_named pipeline step Hlast).
  rewrite step_invariant_snoc in Hinv.
  destruct (String.eqb (fst step) "actual_estimator") eqn:Hname; cbn [snd].
  - rewrite Hsteps, removelast_last.
    unfold remove_estimator_from_pipeline. cbn [steps].
    destruct (last l) as [step'|] eqn:Hl.
    + rewrite (no_estimator_last l step' Hinv Hl).
      apply last_Some in Hl as [l' ->]. by destruct l'.
    + apply last_None in Hl as ->. done.
  - rewrite (remove_last_named pipeline step Hlast), Hname, Hsteps.
    by destruct l.
Qed.

(** X17: what leaving the scope does depends on the last step the body
    leaves, not on what was entered: with no step left, the exit raises
    [IndexError] in place of the body's own result; with a last step of
    another name, the exit removes nothing and the body's pipeline and result
    are what the caller gets. *)
Theorem scope_exit_by_last_step {A} pipeline estimator
  (body : Pipeline -> result A * Pipeline) (r : result A) (after_body : Pipeline) :
  body (estimator_pipeline_enter pipeline estimator) = (r, after_body) ->
  (steps after_body = [] ->
     with_estimator_pipeline pipeline estimator body
     = (Raise (IndexError [Lit "list index out of range"]), after_body))
  /\ (forall step, last (steps after_body) = Some step ->
        fst step <> "actual_estimator" ->
        with_estimator_pipeline pipeline estimator body = (r, after_body)).
Proof.
  intros Hbody. unfold with_estimator_pipeline, estimator_pipeline_exit.
  rewrite Hbody. split.
  - intros Hempty. unfold remove_estimator_from_pipeline. by rewrite Hempty.
  - intros step Hlast Hname.
    rewrite (remove_last_named after_body step Hlast).
    by destruct (String.eqb_spec (fst step) "actual_estimator").
Qed.
End ComposerMore.

Lemma remove_estimator_twice_witness :
  remove_estimator_from_pipeline
    (snd (remove_estimator_from_pipeline
            (add_estimator_to_pipeline sample_pipeline model)))
  = (Ok tt, sample_pipeline).
Proof.
  apply (remove_estimator_twice (add_estimator_to_pipeline sample_pipeline model)).
  reflexivity.
Defined.

Lemma scope_exit_by_last_step_witness :
  with_estimator_pipeline sample_pipeline model
    (fun entered => (Ok tt, mkPipeline [] (memory entered)))
  = (Raise (IndexError [Lit "list index out of range"]), mkPipeline [] PyNone).
Proof.
  by apply (scope_exit_by_last_step sample_pipeline model
              (fun entered => (Ok tt, mkPipeline [] (memory entered)))
              (Ok tt) (mkPipeline [] PyNone) eq_refl).
Defined.

(** ** Class and package names *)

Section ClassNames.
Implicit Types (qualname s : string).

Lemma append_empty s : "" +:+ s = s.
Proof. reflexivity. Qed.

Lemma append_cons (a : Ascii.ascii) s1 s2 :
  String a s1 +:+ s2 = String a (s1 +:+ s2).
Proof. reflexivity. Qed.

Lemma string_length_append s1 s2 :
  String.length (s1 +:+ s2) = (String.length s1 + String.length s2)%nat.
Proof.
  induction s1 as [|a s1 IH]; [done|].
  rewrite append_cons. cbn [String.length]. by rewrite IH.
Qed.

Lemma substring_append s1 s2 :
  String.substring 0 (String.length s1) (s1 +:+ s2) = s1.
Proof.
  induction s1 as [|a s1 IH]; [by destruct s2|].
  rewrite append_cons. cbn [String.length String.substring]. by rewrite IH.
Qed.

Lemma substring_between (front s back : string) :
  String.substring (String.length front)
    (String.length (front +:+ s +:+ back)
     - (String.length front + String.length back))
    (front +:+ s +:+ back) = s.
Proof.
  induction front as [|a front IH].
  - rewrite append_empty, string_length_append. cbn [String.length].
    replace (String.length s + String.length back
             - (0 + String.length back))%nat
      with (String.length s) by lia.
    apply substring_append.
  - rewrite append_cons. cbn [String.length String.substring]. exact IH.
Qed.

Lemma get_class_name_usual qualname (str_is_instance : bool) :
  get_class_name (ClassObj qualname None str_is_instance) = qualname.
Proof. exact (substring_between "<class '" qualname "'>"). Qed.

(** X18: for a class printed the usual way, [get_class_name] gives back
    the dotted name, whatever the name: cutting eight characters at the
    front and two at the end of [<class 'NAME'>] leaves the name.  (For a
    class with a text of its own the same cut is made in that text: an enum
    class [Color] gives [olor].) *)
Theorem get_class_name_of_class qualname (str_is_instance : bool) :
  get_class_name (ClassObj qualname None str_is_instance) = qualname
  /\ forall text,
       get_class_name (ClassObj qualname (Some text) str_is_instance)
       = String.substring 8 (String.length text - 10) text.
Proof.
  split; [apply get_class_name_usual | done].
Qed.

Lemma before_char_prefix (sep : Ascii.ascii) s :
  (s = before_char sep s
   \/ exists rest, s = before_char sep s +:+ String sep rest)
  /\ Forall (fun c => c <> sep) (String.list_ascii_of_string (before_char sep s)).
Proof.
  induction s as [|a s [IHs IHc]]; [by split; [left | constructor]|].
  cbn [before_char]. destruct (Ascii.eqb_spec a sep) as [->|Hne].
  - split; [right; by exists s | constructor].
  - split.
    + destruct IHs as [Heq|[rest Heq]].
      * left. by f_equal.
      * right. exists rest. rewrite append_cons. by f_equal.
    + cbn [String.list_ascii_of_string]. by constructor.
Qed.

(** X19: [get_package_name] raises [TypeError] for every text, because the
    arguments of its [isinstance] test are the class [str] and the value;
    for a class printed the usual way that [str] is not an instance of, it
    returns the part of the dotted name before the first dot, the whole name
    when there is no dot; for a class that [str] is an instance of, it
    raises [AttributeError]. *)
Theorem get_package_name_cases :
  (forall s, exists e, get_package_name (TextObj s) = Raise e)
  /\ (forall qualname,
        exists package,
          get_package_name (ClassObj qualname None false) = Ok package
          /\ (qualname = package
              \/ exists rest, qualname = package +:+ String dot rest)
          /\ Forall (fun c => c <> dot) (String.list_ascii_of_string package))
  /\ forall qualname own_repr,
       exists e, get_package_name (ClassObj qualname own_repr true) = Raise e.
Proof.
  split; [intros s; by eexists|]. split; [|intros qualname own_repr; by eexists].
  intros qualname. unfold get_package_name.
  rewrite (get_class_name_usual qualname false). cbn.
  eexists. split; [done|]. apply before_char_prefix.
Qed.
End ClassNames.

Example get_package_name_sklearn :
  get_package_name (ClassObj "sklearn.linear_model.Ridge" None false)
  = Ok "sklearn".
Proof. vm_compute. reflexivity. Qed.

Example get_class_name_enum :
  get_class_name (ClassObj "__main__.Color" (Some "<enum 'Color'>") false)
  = "olor".
Proof. reflexivity. Qed.

(** ** Parameter grids *)

Section ParamGrid.
Variable iterate : pyobj -> result (list pyobj).
Implicit Types (param_grid items : list (string * pyobj)) (k : string).

(** [list] returns a list, and a list is its own [list]. *)
Lemma py_list_fixed (v l : pyobj) :
  py_list iterate v = Ok l ->
  (exists elts, l = PyList elts) /\ py_list iterate l = Ok l.
Proof.
  destruct v; cbn; try (intros [= <-]; split; [by eexists | done]);
    destruct (iterate _) as [elts|e]; cbn; try done;
    intros [= <-]; split; by eexists.
Qed.

Lemma dict_setitem_middle {V} k (v v' : V) (visited rest : list (string * V)) :
  k ∉ visited.*1 ->
  dict_setitem k v' (visited ++ (k, v) :: rest) = visited ++ (k, v') :: rest.
Proof.
  induction visited as [|[k0 v0] visited IH]; intros Hk; cbn.
  - by rewrite String.eqb_refl.
  - cbn in Hk. apply not_elem_of_cons in Hk as [Hne Hk].
    destruct (String.eqb_spec k0 k) as [->|_]; [done|]. by rewrite IH.
Qed.

Lemma param_grid_loop_result items :
  forall visited out,
    NoDup (visited ++ items).*1 ->
    param_grid_loop iterate items (visited ++ items) = (Ok tt, out) ->
    exists items',
      out = visited ++ items'
      /\ Forall2 (fun kv kv' => fst kv' = fst kv
                                /\ py_list iterate (snd kv) = Ok (snd kv'))
                 items items'.
Proof.
  induction items as [|[k v] rest IH]; intros visited out Hnd Hloop.
  - injection Hloop as <-. exists []. by split.
  - cbn [param_grid_loop] in Hloop.
    destruct (py_list iterate v) as [l|e] eqn:Hl; [|done].
    assert (k ∉ visited.*1) as Hk.
    { rewrite fmap_app in Hnd. apply NoDup_app in Hnd as (_ & Hdisj & _).
      intros Hin. apply (Hdisj k Hin). left. }
    rewrite dict_setitem_middle in Hloop by done.
    replace (visited ++ (k, l) :: rest) with ((visited ++ [(k, l)]) ++ rest)
      in Hloop by by rewrite <- app_assoc.
    apply IH in Hloop as (rest' & -> & Hall).
    + exists ((k, l) :: rest'). split; [by rewrite <- app_assoc|].
      constructor; [done | exact Hall].
    + revert Hnd. by rewrite !fmap_app, <- app_assoc.
Qed.

(** X20: on a grid whose [list] calls all succeed, [param_grid_to_lists]
    keeps the keys and their order, puts under each key the [list] of the
    value that was there, which is a list; applied to its own result it
    changes nothing. *)
Theorem param_grid_to_lists_result param_grid :
  NoDup param_grid.*1 ->
  fst (param_grid_to_lists iterate param_grid) = Ok tt ->
  let out := snd (param_grid_to_lists iterate param_grid) in
  out.*1 = param_grid.*1
  /\ Forall2 (fun kv kv' => fst kv' = fst kv
                            /\ py_list iterate (snd kv) = Ok (snd kv'))
             param_grid out
  /\ Forall (fun kv => exists elts, snd kv = PyList elts) out
  /\ param_grid_to_lists iterate out = (Ok tt, out).
Proof.
  intros Hnd Hok out.
  assert (exists out',
             param_grid_loop iterate param_grid param_grid = (Ok tt, out')
             /\ out = out') as (out' & Hloop & Hout).
  { subst out. revert Hok. unfold param_grid_to_lists.
    destruct param_grid as [|kv rest]; [by eexists|].
    destruct (param_grid_loop iterate (kv :: rest) (kv :: rest)) as [[[]|e] o];
      [by eexists | done]. }
  rewrite Hout. clear out Hout Hok.
  destruct (param_grid_loop_result param_grid [] out' Hnd Hloop)
    as (items' & -> & Hall).
  cbn [app].
  assert (items'.*1 = param_grid.*1) as Hkeys.
  { clear -Hall. induction Hall as [|kv kv' l l' [Hk _] _ IH]; [done|].
    cbn. by rewrite Hk, IH. }
  assert (Forall (fun kv => (exists elts, snd kv = PyList elts)
                            /\ py_list iterate (snd kv) = Ok (snd kv)) items')
    as Hlists.
  { clear -Hall. induction Hall as [|kv kv' l l' [_ Hl] _ IH]; [done|].
    constructor; [|done]. by apply py_list_fixed in Hl. }
  split; [done|]. split; [done|]. split.
  { eapply Forall_impl; [exact Hlists|]. by intros kv [Hlist _]. }
  assert (forall visited,
             NoDup (visited ++ items').*1 ->
             param_grid_loop iterate items' (visited ++ items')
             = (Ok tt, visited ++ items')) as Hfix.
  { clear -Hlists. induction Hlists as [|[k v] rest [_ Hl] _ IH];
      intros visited Hnd; [done|].
    cbn [param_grid_loop]. cbn in Hl. rewrite Hl.
    rewrite dict_setitem_middle.
    - replace (visited ++ (k, v) :: rest) with ((visited ++ [(k, v)]) ++ rest)
        by by rewrite <- app_assoc.
      apply IH. revert Hnd. by rewrite !fmap_app, <- app_assoc.
    - rewrite fmap_app in Hnd. apply NoDup_app in Hnd as (_ & Hdisj & _).
      intros Hin. apply (Hdisj k Hin). left. }
  unfold param_grid_to_lists. destruct items' as [|kv rest]; [done|].
  apply (Hfix []). cbn [app]. by rewrite Hkeys.
Qed.
End ParamGrid.

Lemma param_grid_to_lists_result_witness :
  (snd (param_grid_to_lists not_iterable sample_grid)).*1
  = ["alpha"; "solver"; "fit_intercept"].
Proof.
  assert (NoDup sample_grid.*1) as Hnd by (apply (bool_decide_unpack _); exact I).
  destruct (param_grid_to_lists_result not_iterable sample_grid Hnd eq_refl)
    as (Hkeys & _).
  exact Hkeys.
Defined.

(** ** The parameter scopes *)

Section ParamScopes.
Context {S : Type} (M : sk_model S).
Implicit Types (model : S) (d params : list (string * pyobj)) (k : string).

Lemma dict_get_filter (pred : string -> bool) k d :
  dict_get k (filter (fun kv => pred (fst kv)) d)
  = if pred k then dict_get k d else None.
Proof.
  induction d as [|[k0 v0] d IH]; [by destruct (pred k)|].
  rewrite filter_cons. cbn [fst].
  destruct (pred k0) eqn:Hk0; case_decide as H; try (by destruct H); cbn.
  - destruct (String.eqb_spec k0 k) as [->|_]; [by rewrite Hk0 | exact IH].
  - destruct (String.eqb_spec k0 k) as [->|_]; [by rewrite Hk0 in * | exact IH].
Qed.

Lemma dict_get_const (value : pyobj) k params :
  dict_get k (map (fun kv => (fst kv, value)) params)
  = match dict_get k params with
    | Some _ => Some value
    | None => None
    end.
Proof.
  induction params as [|[k0 v0] params IH]; [done|].
  cbn. by destruct (String.eqb k0 k).
Qed.

Lemma filter_keys (pred : string -> bool) d :
  NoDup d.*1 ->
  NoDup (filter (fun kv => pred (fst kv)) d).*1
  /\ forall k, k ∈ (filter (fun kv => pred (fst kv)) d).*1 -> k ∈ d.*1.
Proof.
  intros Hnd.
  assert ((filter (fun kv => pred (fst kv)) d).*1 `sublist_of` d.*1) as Hsub
    by apply fmap_sublist, sublist_filter.
  split; [by eapply sublist_NoDup|].
  intros k Hk. by eapply elem_of_sublist.
Qed.

(** Entering and leaving, for any choice of the names and of the value set
    on entry. *)
Lemma scope_enter (pred : string -> bool) (value : pyobj) model d :
  params_store M ->
  get_params M model = Ok d -> NoDup d.*1 ->
  exists entered d1,
    match filter (fun kv => pred (fst kv)) d with
    | [] => (Ok tt, model)
    | _ :: _ =>
        set_params M (map (fun kv => (fst kv, value))
                          (filter (fun kv => pred (fst kv)) d)) model
    end = (Ok tt, entered)
    /\ get_params M entered = Ok d1
    /\ (forall k, k ∈ d1.*1 <-> k ∈ d.*1)
    /\ forall k, dict_get k d1
                 = if pred k
                   then match dict_get k d with
                        | Some _ => Some value
                        | None => None
                        end
                   else dict_get k d.
Proof.
  intros Hstore Hget Hnd.
  destruct (filter_keys pred d Hnd) as [Hnd' Hsub].
  pose proof (dict_get_filter pred) as Hfilter.
  destruct (filter (fun kv => pred (fst kv)) d) as [|kv params] eqn:Hparams.
  - exists model, d. split; [done|]. split; [done|]. split; [done|].
    intros k. specialize (Hfilter k d). rewrite Hparams in Hfilter.
    destruct (pred k); [|done]. by rewrite <- Hfilter.
  - destruct (Hstore (map (fun kv => (fst kv, value)) (kv :: params)) model d Hget)
      as (entered & d1 & Hset & Hget1 & Hkeys & Hlookup).
    { by rewrite <- list_fmap_compose. }
    { intros k Hk. apply Hsub.
      by rewrite <- list_fmap_compose in Hk. }
    exists entered, d1. split; [done|]. split; [done|]. split; [done|].
    intros k. rewrite Hlookup, dict_get_const, <- Hparams, Hfilter.
    destruct (pred k); [|done]. by destruct (dict_get k d).
Qed.

Lemma scope_exit (pred : string -> bool) (value : pyobj) model d d1 :
  params_store M ->
  NoDup d.*1 ->
  get_params M model = Ok d1 ->
  (forall k, k ∈ d1.*1 <-> k ∈ d.*1) ->
  (forall k, dict_get k d1
             = if pred k
               then match dict_get k d with
                    | Some _ => Some value
                    | None => None
                    end
               else dict_get k d) ->
  exists after d3,
    match filter (fun kv => pred (fst kv)) d with
    | [] => (Ok tt, model)
    | _ :: _ => set_params M (filter (fun kv => pred (fst kv)) d) model
    end = (Ok tt, after)
    /\ get_params M after = Ok d3
    /\ forall k, dict_get k d3 = dict_get k d.
Proof.
  intros Hstore Hnd Hget1 Hkeys1 Hlookup1.
  destruct (filter_keys pred d Hnd) as [Hnd' Hsub].
  pose proof (dict_get_filter pred) as Hfilter.
  destruct (filter (fun kv => pred (fst kv)) d) as [|kv params] eqn:Hparams.
  - exists model, d1. split; [done|]. split; [done|].
    intros k. rewrite Hlookup1. specialize (Hfilter k d).
    rewrite Hparams in Hfilter. destruct (pred k); [|done].
    cbn in Hfilter. by rewrite <- Hfilter.
  - destruct (Hstore (kv :: params) model d1 Hget1)
      as (after & d3 & Hset & Hget3 & _ & Hlookup); [done| |].
    { intros k Hk. apply Hkeys1. by apply Hsub. }
    exists after, d3. split; [done|]. split; [done|].
    intros k. rewrite Hlookup, <- Hparams, Hfilter, Hlookup1.
    destruct (pred k); [|done]. by destruct (dict_get k d).
Qed.
End ParamScopes.

Section ParamScopesMain.
Context {S A : Type} (M : sk_model S).
Implicit Types (model : S) (d : list (string * pyobj)) (k : string).
Implicit Types (body : S -> result A * S).

(** X21: for a model whose parameters behave as a store, and a body that
    leaves the parameters as it finds them: inside [with none_n_jobs(model)]
    every parameter whose name ends in [n_jobs] or [thread_count] reads
    [None] and every other parameter reads as before; after the scope every
    parameter reads as before it, and the scope gives the body's result. *)
Theorem none_n_jobs_scope model d body :
  params_store M ->
  get_params M model = Ok d -> NoDup d.*1 ->
  (forall m, get_params M (snd (body m)) = get_params M m) ->
  exists entered after d1 d3,
    none_n_jobs_enter M (none_n_jobs_init M model) model = (Ok tt, entered)
    /\ get_params M entered = Ok d1
    /\ (forall k, dict_get k d1
                  = if is_n_jobs k
                    then match dict_get k d with
                         | Some _ => Some PyNone
                         | None => None
                         end
                    else dict_get k d)
    /\ with_none_n_jobs M model body = (fst (body entered), after)
    /\ get_params M after = Ok d3
    /\ forall k, dict_get k d3 = dict_get k d.
Proof.
  intros Hstore Hget Hnd Hbody.
  destruct (scope_enter M is_n_jobs PyNone model d Hstore Hget Hnd)
    as (entered & d1 & Henter & Hget1 & Hkeys1 & Hlookup1).
  assert (get_params M (snd (body entered)) = Ok d1) as Hget2
    by by rewrite Hbody.
  destruct (scope_exit M is_n_jobs PyNone (snd (body entered)) d d1
              Hstore Hnd Hget2 Hkeys1 Hlookup1)
    as (after & d3 & Hexit & Hget3 & Hlookup3).
  exists entered, after, d1, d3.
  assert (none_n_jobs_enter M (none_n_jobs_init M model) model = (Ok tt, entered))
    as Henter' by (unfold none_n_jobs_init, none_n_jobs_enter; by rewrite Hget).
  split; [done|]. split; [done|]. split; [done|]. split; [|done].
  unfold with_none_n_jobs. rewrite Henter'.
  destruct (body entered) as [r after_body].
  unfold none_n_jobs_init, none_n_jobs_exit. rewrite Hget.
  cbn [snd] in Hexit. by rewrite Hexit.
Qed.

(** X22: the same for [with true_warm_start(model)]: inside, every
    parameter whose name ends in [warm_start] reads [True]; after the scope
    every parameter reads as before it. *)
Theorem true_warm_start_scope model d body :
  params_store M ->
  get_params M model = Ok d -> NoDup d.*1 ->
  (forall m, get_params M (snd (body m)) = get_params M m) ->
  exists entered after d1 d3,
    true_warm_start_enter M (true_warm_start_init M model) model = (Ok tt, entered)
    /\ get_params M entered = Ok d1
    /\ (forall k, dict_get k d1
                  = if endswith k "warm_start"
                    then match dict_get k d with
                         | Some _ => Some (PyBool true)
                         | None => None
                         end
                    else dict_get k d)
    /\ with_true_warm_start M model body = (fst (body entered), after)
    /\ get_params M after = Ok d3
    /\ forall k, dict_get k d3 = dict_get k d.
Proof.
  intros Hstore Hget Hnd Hbody.
  destruct (scope_enter M (fun k => endswith k "warm_start") (PyBool true)
              model d Hstore Hget Hnd)
    as (entered & d1 & Henter & Hget1 & Hkeys1 & Hlookup1).
  assert (get_params M (snd (body entered)) = Ok d1) as Hget2
    by by rewrite Hbody.
  destruct (scope_exit M (fun k => endswith k "warm_start") (PyBool true)
              (snd (body entered)) d d1 Hstore Hnd Hget2 Hkeys1 Hlookup1)
    as (after & d3 & Hexit & Hget3 & Hlookup3).
  exists entered, after, d1, d3.
  assert (true_warm_start_enter M (true_warm_start_init M model) model
          = (Ok tt, entered))
    as Henter' by (unfold true_warm_start_init, true_warm_start_enter;
                   by rewrite Hget).
  split; [done|]. split; [done|]. split; [done|]. split; [|done].
  unfold with_true_warm_start. rewrite Henter'.
  destruct (body entered) as [r after_body].
  unfold true_warm_start_init, true_warm_start_exit. rewrite Hget.
  cbn [snd] in Hexit. by rewrite Hexit.
Qed.

Lemma filter_none (pred : string -> bool) d :
  Forall (fun kv => pred (fst kv) = false) d ->
  filter (fun kv => pred (fst kv)) d = [].
Proof.
  induction 1 as [|kv d Hkv _ IH]; [done|].
  rewrite filter_cons. case_decide as H; [by rewrite Hkv in H | exact IH].
Qed.

(** X23: a model whose [get_params] raises, or reports no parameter with
    such a name, goes through either scope untouched: [set_params] is not
    called, and the scope is the body alone. *)
Theorem param_scopes_without_names model body :
  ((forall d, get_params M model = Ok d ->
              Forall (fun kv => is_n_jobs (fst kv) = false) d) ->
   with_none_n_jobs M model body = body model)
  /\ ((forall d, get_params M model = Ok d ->
                 Forall (fun kv => endswith (fst kv) "warm_start" = false) d) ->
      with_true_warm_start M model body = body model).
Proof.
  split; intros Hnone.
  - unfold with_none_n_jobs, none_n_jobs_init.
    destruct (get_params M model) as [d|e].
    + rewrite (filter_none is_n_jobs d (Hnone d eq_refl)). cbn.
      by destruct (body model).
    + cbn. by destruct (body model).
  - unfold with_true_warm_start, true_warm_start_init.
    destruct (get_params M model) as [d|e].
    + rewrite (filter_none (fun k => endswith k "warm_start") d (Hnone d eq_refl)).
      cbn. by destruct (body model).
    + cbn. by destruct (body model).
Qed.
End ParamScopesMain.

(** The sample model is such a store. *)
Lemma dict_get_is_Some {V} (k : string) (d : list (string * V)) :
  k ∈ d.*1 <-> exists v, dict_get k d = Some v.
Proof.
  split.
  - induction d as [|[k0 v0] d IH]; intros Hin; [by apply elem_of_nil in Hin|].
    cbn in *. destruct (String.eqb_spec k0 k) as [->|Hne]; [by eexists|].
    apply elem_of_cons in Hin as [->|Hin]; [done | by apply IH].
  - intros [v Hv]. apply dict_get_elem in Hv.
    apply list_elem_of_fmap. by exists (k, v).
Qed.

Lemma dict_get_reverse {V} (k : string) (d : list (string * V)) :
  NoDup d.*1 -> dict_get k (reverse d) = dict_get k d.
Proof.
  intros Hnd. destruct (dict_get k d) as [v|] eqn:Hget.
  - apply dict_get_in.
    + by rewrite fmap_reverse, reverse_Permutation.
    + apply elem_of_reverse. by apply dict_get_elem.
  - apply dict_get_notin. rewrite fmap_reverse, elem_of_reverse.
    intros [v Hv]%dict_get_is_Some. congruence.
Qed.

Lemma dict_model_store : params_store dict_model.
Proof.
  intros kw model d Hget Hnd Hsub. cbn in Hget. injection Hget as <-.
  assert (forall k,
             dict_get k (foldl (fun acc kv => dict_setitem (fst kv) (snd kv) acc)
                               model kw)
             = match dict_get k kw with
               | Some v => Some v
               | None => dict_get k model
               end) as Hlookup.
  { intros k. by rewrite dict_get_foldl, dict_get_reverse. }
  eexists _, _. split; [|split; [reflexivity|split; [|exact Hlookup]]].
  - cbn. rewrite (proj2 (forallb_forall _ kw)); [done|].
    intros kv Hkv. apply existsb_exists. exists (fst kv).
    split; [|apply String.eqb_refl].
    apply list_elem_of_In, Hsub, list_elem_of_fmap. exists kv.
    split; [done | by apply list_elem_of_In].
  - intros k. rewrite !dict_get_is_Some. setoid_rewrite Hlookup. split.
    + intros [v Hv]. destruct (dict_get k kw) as [v'|] eqn:Hkw; [|by eexists].
      apply dict_get_is_Some, Hsub, dict_get_is_Some. by eexists.
    + intros [v Hv]. rewrite Hv. destruct (dict_get k kw); by eexists.
Qed.

Lemma none_n_jobs_scope_witness :
  exists entered after d1 d3,
    none_n_jobs_enter dict_model (none_n_jobs_init dict_model forest_params)
      forest_params = (Ok tt, entered)
    /\ get_params dict_model entered = Ok d1
    /\ (forall k, dict_get k d1
                  = if is_n_jobs k
                    then match dict_get k forest_params with
                         | Some _ => Some PyNone
                         | None => None
                         end
                    else dict_get k forest_params)
    /\ with_none_n_jobs dict_model forest_params (fun m => (Ok tt, m))
       = (fst ((fun m => (Ok tt, m)) entered), after)
    /\ get_params dict_model after = Ok d3
    /\ forall k, dict_get k d3 = dict_get k forest_params.
Proof.
  apply (none_n_jobs_scope dict_model forest_params forest_params
           (fun m => (Ok tt, m)) dict_model_store eq_refl).
  - apply (bool_decide_unpack _). exact I.
  - reflexivity.
Defined.

Lemma true_warm_start_scope_witness :
  exists entered after d1 d3,
    true_warm_start_enter dict_model
      (true_warm_start_init dict_model forest_params) forest_params
    = (Ok tt, entered)
    /\ get_params dict_model entered = Ok d1
    /\ (forall k, dict_get k d1
                  = if endswith k "warm_start"
                    then match dict_get k forest_params with
                         | Some _ => Some (PyBool true)
                         | None => None
                         end
                    else dict_get k forest_params)
    /\ with_true_warm_start dict_model forest_params (fun m => (Ok tt, m))
       = (fst ((fun m => (Ok tt, m)) entered), after)
    /\ get_params dict_model after = Ok d3
    /\ forall k, dict_get k d3 = dict_get k forest_params.
Proof.
  apply (true_warm_start_scope dict_model forest_params forest_params
           (fun m => (Ok tt, m)) dict_model_store eq_refl).
  - apply (bool_decide_unpack _). exact I.
  - reflexivity.
Defined.

Lemma param_scopes_without_names_witness :
  with_none_n_jobs dict_model [("alpha", PyInt 1)] (fun m => (Ok tt, m))
  = (Ok tt, [("alpha", PyInt 1)]).
Proof.
  apply (param_scopes_without_names dict_model [("alpha", PyInt 1)]
           (fun m => (Ok tt, m))).
  intros d [= <-]. repeat constructor.
Defined.

Example none_n_jobs_inside :
  none_n_jobs_enter dict_model (none_n_jobs_init dict_model forest_params)
    forest_params
  = (Ok tt, [("n_estimators", PyInt 100); ("n_jobs", PyNone);
             ("warm_start", PyBool false)]).
Proof. vm_compute. reflexivity. Qed.

(** ** The model catalog *)

Section ModelCatalog.
Implicit Types (e : estimator) (all_models before after : list model_row).
Implicit Types (row : model_row) (deep : bool).

Lemma get_model_id_none e all_models :
  Forall (fun r => model_Class r <> type_of e) all_models ->
  get_model_id e all_models = None /\ is_special_model e all_models = false.
Proof.
  induction 1 as [|r rest Hr _ [IHid IHspecial]]; [done|].
  cbn. by destruct (String.eqb_spec (type_of e) (model_Class r)).
Qed.

Lemma get_model_id_first e before row after :
  Forall (fun r => model_Class r <> type_of e) before ->
  model_Class row = type_of e ->
  get_model_id e (before ++ row :: after) = Some (model_Index row)
  /\ is_special_model e (before ++ row :: after) = model_Special row.
Proof.
  intros Hbefore Hrow.
  induction Hbefore as [|r rest Hr _ IH]; cbn.
  - by rewrite Hrow, String.eqb_refl.
  - destruct (String.eqb_spec (type_of e) (model_Class r)); [congruence|exact IH].
Qed.

(** X24: [get_model_id] and [is_special_model] read the same row, the first
    one whose class is the class of the object: one returns its label, the
    other its flag; with no such row they return [None] and [False]. *)
Theorem model_lookup_first_row e all_models :
  (forall before row after,
     all_models = before ++ row :: after ->
     Forall (fun r => model_Class r <> type_of e) before ->
     model_Class row = type_of e ->
     get_model_id e all_models = Some (model_Index row)
     /\ is_special_model e all_models = model_Special row)
  /\ (Forall (fun r => model_Class r <> type_of e) all_models ->
      get_model_id e all_models = None /\ is_special_model e all_models = false)
  /\ (get_model_id e all_models = None ->
      Forall (fun r => model_Class r <> type_of e) all_models).
Proof.
  split; [|split; [apply get_model_id_none|]].
  - intros before row after -> Hbefore Hrow. by apply get_model_id_first.
  - induction all_models as [|r rest IH]; [done|]. cbn.
    destruct (String.eqb_spec (type_of e) (model_Class r)); [done|].
    intros Hnone. constructor; [done | by apply IH].
Qed.

Lemma final_estimator_steps (cls repr : string)
  (l : list (string * estimator)) (name : string) e
  (b x : option estimator) :
  final_estimator (EObject cls repr (Some (l ++ [(name, e)])) b x)
  = final_estimator e.
Proof.
  cbn [final_estimator].
  induction l as [|[n0 e0] l IH]; [done|].
  cbn [app]. destruct l as [|[n1 e1] l]; [done|]. exact IH.
Qed.

Lemma get_model_name_object (cls repr : string)
  (st : option (list (string * estimator))) (b x : option estimator)
  all_models deep :
  get_model_name (EObject cls repr st b x) all_models deep
  = (e ← (if deep then final_estimator (EObject cls repr st b x)
          else Ok (EObject cls repr st b x));
     match get_model_id e all_models with
     | Some model_id => loc_Name all_models model_id
     | None => Ok (Scalar (before_char open_paren (str_estimator e)))
     end).
Proof.
  unfold get_model_name. cbn [text_in_index].
  by destruct (if deep then _ else _).
Qed.

Lemma get_model_name_not_label e all_models deep :
  text_in_index e all_models = None ->
  get_model_name e all_models deep
  = (e ← (if deep then final_estimator e else Ok e);
     match get_model_id e all_models with
     | Some model_id => loc_Name all_models model_id
     | None => Ok (Scalar (before_char open_paren (str_estimator e)))
     end).
Proof.
  intros Hlabel. unfold get_model_name. rewrite Hlabel.
  by destruct (if deep then _ else _).
Qed.

(** X25: with [deep], the name of a pipeline is the name of the estimator
    in its last step, the name of an object with a [base_estimator] (and no
    [steps]) is the name of that estimator, and likewise for [estimator]:
    provided the inner value is not a text that is a label of the catalog,
    which named directly would be taken as a label. *)
Theorem get_model_name_through_wrappers e all_models (cls repr : string) :
  text_in_index e all_models = None ->
  (forall l name b x,
     get_model_name (EObject cls repr (Some (l ++ [(name, e)])) b x)
       all_models true
     = get_model_name e all_models true)
  /\ (forall x,
        get_model_name (EObject cls repr None (Some e) x) all_models true
        = get_model_name e all_models true)
  /\ get_model_name (EObject cls repr None None (Some e)) all_models true
     = get_model_name e all_models true.
Proof.
  intros Hlabel. rewrite (get_model_name_not_label e all_models true Hlabel).
  split; [|split].
  - intros l name b x. by rewrite get_model_name_object, final_estimator_steps.
  - intros x. by rewrite get_model_name_object.
  - by rewrite get_model_name_object.
Qed.

Lemma filter_label_fresh all_models (label : string) :
  label ∉ map model_Index all_models ->
  filter (fun r => model_Index r = label) all_models = [].
Proof.
  induction all_models as [|r rest IH]; intros Hfresh; [done|].
  cbn in Hfresh. apply not_elem_of_cons in Hfresh as [Hne Hfresh].
  rewrite filter_cons. case_decide; [congruence | by apply IH].
Qed.

Lemma loc_Name_unique all_models row :
  NoDup (map model_Index all_models) ->
  row ∈ all_models ->
  loc_Name all_models (model_Index row) = Ok (Scalar (model_Name row)).
Proof.
  intros Hnd Hin. unfold loc_Name.
  assert (filter (fun r => model_Index r = model_Index row) all_models = [row])
    as ->; [|done].
  induction all_models as [|r rest IH]; [by apply elem_of_nil in Hin|].
  cbn in Hnd. apply NoDup_cons in Hnd as [Hfresh Hnd].
  rewrite filter_cons. apply elem_of_cons in Hin as [->|Hin].
  - case_decide; [|done]. by rewrite filter_label_fresh.
  - case_decide as Hsame; [|by apply IH].
    exfalso. apply Hfresh. rewrite Hsame.
    apply list_elem_of_fmap. by exists row.
Qed.

(** X26: the name of a value that is not a label of the catalog, once the
    wrappers are looked through ([deep]) or not: with labels unique in the
    catalog, the [Name] of the first row whose class is the class of the
    resolved object; with no such row, the text of the object up to its
    first opening parenthesis. *)
Theorem get_model_name_resolved e (resolved : estimator) all_models deep :
  text_in_index e all_models = None ->
  (if deep then final_estimator e else Ok e) = Ok resolved ->
  (Forall (fun r => model_Class r <> type_of resolved) all_models ->
     get_model_name e all_models deep
     = Ok (Scalar (before_char open_paren (str_estimator resolved)))
     /\ Forall (fun c => c <> open_paren)
               (String.list_ascii_of_string
                  (before_char open_paren (str_estimator resolved))))
  /\ (NoDup (map model_Index all_models) ->
      forall before row after,
        all_models = before ++ row :: after ->
        Forall (fun r => model_Class r <> type_of resolved) before ->
        model_Class row = type_of resolved ->
        get_model_name e all_models deep = Ok (Scalar (model_Name row))).
Proof.
  intros Hlabel Hresolved.
  rewrite (get_model_name_not_label e all_models deep Hlabel), Hresolved.
  cbn [mbind result_bind]. split.
  - intros Hnone.
    destruct (get_model_id_none resolved all_models Hnone) as [-> _].
    split; [done|]. apply before_char_prefix.
  - intros Hnd before row after Hsplit Hbefore Hrow.
    assert (get_model_id resolved all_models = Some (model_Index row)) as ->.
    { rewrite Hsplit. by apply get_model_id_first. }
    apply loc_Name_unique; [done|]. subst all_models.
    apply elem_of_app. right. left.
Qed.

(** X27: a text that is a label of the catalog is taken as the label,
    whatever [deep] is: with labels unique, the result is the [Name] of the
    row with this label. *)
Theorem get_model_name_label row all_models deep :
  NoDup (map model_Index all_models) ->
  row ∈ all_models ->
  get_model_name (EText (model_Index row)) all_models deep
  = Ok (Scalar (model_Name row)).
Proof.
  intros Hnd Hin. unfold get_model_name, text_in_index.
  assert (existsb (String.eqb (model_Index row)) (map model_Index all_models)
          = true) as ->.
  { apply existsb_exists. exists (model_Index row).
    split; [|apply String.eqb_refl].
    apply list_elem_of_In, list_elem_of_fmap. by exists row. }
  cbn. by apply loc_Name_unique.
Qed.

(** X28: when the loop that looks through the wrappers ends, it ends on a
    value with none of [steps], [base_estimator] and [estimator], which it
    leaves as it is; when it raises, it is the [IndexError] of reading the
    last step of an empty [steps] list. *)
Theorem final_estimator_leaf e :
  (forall resolved,
     final_estimator e = Ok resolved ->
     is_leaf resolved = true /\ final_estimator resolved = Ok resolved)
  /\ forall err,
       final_estimator e = Raise err ->
       err = IndexError [Lit "list index out of range"].
Proof.
  induction e as [| s | cls repr st b x Hst Hb Hx] using estimator_induction.
  - split; [by intros resolved [= <-] | done].
  - split; [by intros resolved [= <-] | done].
  - destruct st as [l|].
    + destruct l as [|step l _] using rev_ind.
      { split; [done | by intros err [= <-]]. }
      destruct step as [name e']. rewrite final_estimator_steps.
      unfold holds_inside in Hst. rewrite Forall_app, Forall_singleton in Hst.
      destruct Hst as [_ Hlast]. exact Hlast.
    + destruct b as [e'|]; [exact Hb|].
      destruct x as [e'|]; [exact Hx|].
      split; [by intros resolved [= <-] | done].
Qed.
End ModelCatalog.

Lemma model_lookup_first_row_witness :
  get_model_id lr_estimator sample_models = Some "lr"
  /\ is_special_model lr_estimator sample_models = false.
Proof.
  destruct (model_lookup_first_row lr_estimator sample_models) as (Hfirst & _).
  apply (Hfirst [] _ _ eq_refl); [constructor | reflexivity].
Defined.

Lemma get_model_name_through_wrappers_witness :
  get_model_name lr_pipeline sample_models true
  = get_model_name lr_estimator sample_models true.
Proof.
  destruct (get_model_name_through_wrappers lr_estimator sample_models
              "Pipeline" "Pipeline(steps=[...])" eq_refl) as (Hsteps & _).
  exact (Hsteps [("scale", svc_estimator)] "actual_estimator" None None).
Defined.

Lemma get_model_name_resolved_witness :
  get_model_name lr_pipeline sample_models true
  = Ok (Scalar "Logistic Regression")
  /\ get_model_name svc_estimator sample_models true = Ok (Scalar "SVC").
Proof.
  split.
  - destruct (get_model_name_resolved lr_pipeline lr_estimator sample_models true
                eq_refl eq_refl) as (_ & Hrow).
    assert (NoDup (map model_Index sample_models)) as Hnd
      by (apply (bool_decide_unpack _); exact I).
    apply (Hrow Hnd [] _ _ eq_refl); [constructor | reflexivity].
  - destruct (get_model_name_resolved svc_estimator svc_estimator sample_models
                true eq_refl eq_refl) as (Hnone & _).
    apply Hnone. repeat constructor; discriminate.
Defined.

Lemma get_model_name_label_witness :
  get_model_name (EText "bagging") sample_models false
  = Ok (Scalar "Bagging Classifier").
Proof.
  apply (get_model_name_label
           {| model_Index := "bagging"; model_Class := "BaggingClassifier";
              model_Name := "Bagging Classifier"; model_Special := true |}
           sample_models false).
  - apply (bool_decide_unpack _). exact I.
  - right. left.
Defined.

Lemma final_estimator_leaf_witness :
  is_leaf lr_estimator = true /\ final_estimator lr_estimator = Ok lr_estimator.
Proof. by apply (final_estimator_leaf lr_pipeline). Defined.
